(** * Vector.js: a shallow embedding of the 3D Vector class

    The class of [src/index.js] (and of its near-identical sibling module)
    is embedded over IEEE-754 binary64 numbers, taken from the Standard
    Library's executable specification [SpecFloat], and over an explicit
    heap of Vector objects, so that reference identity, allocation and
    aliasing of the [out] parameter of the static forms are visible. *)

From Stdlib Require Import ZArith Bool Lia List.
From Stdlib Require Import Floats.SpecFloat.
From stdpp Require Import base option list.

(** ** JavaScript numbers *)

Module Num.

Local Open Scope Z_scope.

(** A JavaScript number is a binary64: 53 bits of precision, infinities
    at exponent 1024. [S754_nan] is the single observable NaN. *)
Definition number : Type := spec_float.

Definition prec : Z := 53.
Definition emax : Z := 1024.

Definition NaN : number := S754_nan.
Definition Infinity : number := S754_infinity false.
Definition pzero : number := S754_zero false.
Definition nzero : number := S754_zero true.

(** Integer literals of the source ([0], [1], [3], test inputs). *)
Definition of_Z (z : Z) : number := binary_normalize prec emax z 0 false.

Definition one : number := of_Z 1.
Definition three : number := of_Z 3.

(** The arithmetic operators [+ - * /], unary minus, and [Math.sqrt]. *)
Definition add : number -> number -> number := SFadd prec emax.
Definition sub : number -> number -> number := SFsub prec emax.
Definition mul : number -> number -> number := SFmul prec emax.
Definition div : number -> number -> number := SFdiv prec emax.
Definition neg : number -> number := SFopp.
Definition sqrt : number -> number := SFsqrt prec emax.

(** Strict equality [===] on two numbers: NaN differs from everything,
    the two zeros are equal. *)
Definition strict_eq : number -> number -> bool := SFeqb.

Definition is_nan (x : number) : bool :=
  match x with S754_nan => true | _ => false end.

(** ToBoolean on a number: [+0], [-0] and [NaN] are falsy. *)
Definition truthy (x : number) : bool :=
  match x with
  | S754_zero _ | S754_nan => false
  | _ => true
  end.

(** Values that a binary64 can really hold: the mantissa is canonical
    for its exponent and the exponent is in range. *)
Definition valid (x : number) : bool := valid_binary prec emax x.

(** [Math.min] and [Math.max] of two numbers: NaN is contagious and
    [-0] is smaller than [+0]. *)
Definition min2 (a b : number) : number :=
  match a, b with
  | S754_nan, _ | _, S754_nan => S754_nan
  | S754_zero sa, S754_zero sb => S754_zero (sa || sb)
  | _, _ => if SFltb b a then b else a
  end.

Definition max2 (a b : number) : number :=
  match a, b with
  | S754_nan, _ | _, S754_nan => S754_nan
  | S754_zero sa, S754_zero sb => S754_zero (sa && sb)
  | _, _ => if SFltb a b then b else a
  end.

(** ToIntegerOrInfinity, as used by [Array.prototype.slice]. *)
Inductive intinf := NegInf | Fin (z : Z) | PosInf.

Definition to_integer_or_infinity (x : number) : intinf :=
  match x with
  | S754_nan | S754_zero _ => Fin 0
  | S754_infinity false => PosInf
  | S754_infinity true => NegInf
  | S754_finite s m e =>
      let mag := Z.shiftl (Zpos m) e in
      Fin (if s then - mag else mag)
  end.

End Num.

Import Num.

(** ** JavaScript values that reach the class *)

(** An argument is either missing ([undefined]) or a number, as the Flow
    annotations of the source have it. *)
Inductive jsval :=
  | Undefined
  | Number (n : number).

(** [v || d] for a numeric default [d]. *)
Definition or_default (v : jsval) (d : number) : number :=
  match v with
  | Undefined => d
  | Number n => if truthy n then n else d
  end.

(** [Array.prototype.slice(0, end)] with a numeric [end]. *)
Definition slice0 {A} (l : list A) (e : number) : list A :=
  let len := Z.of_nat (length l) in
  let final :=
    match to_integer_or_infinity e with
    | NegInf => 0
    | Fin r => if r <? 0 then Z.max (len + r) 0 else Z.min r len
    | PosInf => len
    end%Z in
  firstn (Z.to_nat final) l.

(** ** Vector objects and the heap *)

(** The three fields of an instance. *)
Record Vector := mkVector { x : number; y : number; z : number }.

(** Objects live in a heap and are passed by reference; a reference is
    the index of the object, and allocation appends. *)
Abbreviation loc := nat (only parsing).
Abbreviation heap := (list Vector) (only parsing).

(** Computations read and write the heap; dereferencing something that
    is not an object of the heap is the only failure. *)
Definition M (A : Type) : Type := heap -> option (A * heap).

Definition ret {A} (a : A) : M A := fun h => Some (a, h).

Definition bind {A B} (m : M A) (k : A -> M B) : M B :=
  fun h => match m h with
           | Some (a, h') => k a h'
           | None => None
           end.

Notation "v <- m ;; k" := (bind m (fun v => k))
  (at level 100, m at next level, right associativity).
Notation "m ;; k" := (bind m (fun _ => k))
  (at level 100, right associativity).

(** [l.f] for a field [f]. *)
Definition get (l : loc) (f : Vector -> number) : M number :=
  fun h => match h !! l with
           | Some v => Some (f v, h)
           | None => None
           end.

(** [l.x = n], [l.y = n], [l.z = n]. *)
Definition set_x (l : loc) (n : number) : M unit :=
  fun h => match h !! l with
           | Some v => Some (tt, <[l := mkVector n (y v) (z v)]> h)
           | None => None
           end.

Definition set_y (l : loc) (n : number) : M unit :=
  fun h => match h !! l with
           | Some v => Some (tt, <[l := mkVector (x v) n (z v)]> h)
           | None => None
           end.

Definition set_z (l : loc) (n : number) : M unit :=
  fun h => match h !! l with
           | Some v => Some (tt, <[l := mkVector (x v) (y v) n]> h)
           | None => None
           end.

(** [new Vector(x, y, z)]: every argument goes through [|| 0]. *)
Definition Vector_of (ax ay az : jsval) : Vector :=
  mkVector (or_default ax pzero) (or_default ay pzero) (or_default az pzero).

Definition new_Vector (ax ay az : jsval) : M loc :=
  fun h => Some (length h, h ++ [Vector_of ax ay az]).

(** The second operand of an arithmetic method: [b instanceof Vector]
    or a number. *)
Inductive operand :=
  | OVector (v : loc)
  | OScalar (n : number).

(** The default value [= new Vector(0,0,0)] of an output parameter. *)
Definition default_out (out : option loc) : M loc :=
  match out with
  | Some c => ret c
  | None => new_Vector (Number pzero) (Number pzero) (Number pzero)
  end.

(** ** Instance methods *)

(** [add], [subtract], [multiply] and [divide] share one shape and
    differ in the operator. *)
Definition instance_arith (op : number -> number -> number)
    (this : loc) (v : operand) : M loc :=
  match v with
  | OVector v =>
      tx <- get this x ;; vx <- get v x ;;
      ty <- get this y ;; vy <- get v y ;;
      tz <- get this z ;; vz <- get v z ;;
      new_Vector (Number (op tx vx)) (Number (op ty vy)) (Number (op tz vz))
  | OScalar n =>
      tx <- get this x ;; ty <- get this y ;; tz <- get this z ;;
      new_Vector (Number (op tx n)) (Number (op ty n)) (Number (op tz n))
  end.

Definition add := instance_arith Num.add.
Definition subtract := instance_arith Num.sub.
Definition multiply := instance_arith Num.mul.
Definition divide := instance_arith Num.div.

Definition negative (this : loc) : M loc :=
  tx <- get this x ;; ty <- get this y ;; tz <- get this z ;;
  new_Vector (Number (neg tx)) (Number (neg ty)) (Number (neg tz)).

Definition equals (this v : loc) : M bool :=
  tx <- get this x ;; vx <- get v x ;;
  if strict_eq tx vx then
    ty <- get this y ;; vy <- get v y ;;
    if strict_eq ty vy then
      tz <- get this z ;; vz <- get v z ;;
      ret (strict_eq tz vz)
    else ret false
  else ret false.

Definition dot (this v : loc) : M number :=
  tx <- get this x ;; vx <- get v x ;;
  ty <- get this y ;; vy <- get v y ;;
  tz <- get this z ;; vz <- get v z ;;
  ret (Num.add (Num.add (Num.mul tx vx) (Num.mul ty vy)) (Num.mul tz vz)).

Definition cross (this v : loc) : M loc :=
  ty <- get this y ;; vz <- get v z ;; tz <- get this z ;; vy <- get v y ;;
  vx <- get v x ;; tx <- get this x ;;
  new_Vector
    (Number (Num.sub (Num.mul ty vz) (Num.mul tz vy)))
    (Number (Num.sub (Num.mul tz vx) (Num.mul tx vz)))
    (Number (Num.sub (Num.mul tx vy) (Num.mul ty vx))).

Definition length (this : loc) : M number :=
  d <- dot this this ;; ret (Num.sqrt d).

(** The sibling module spells it [magnitude] and binds [length] to it. *)
Definition magnitude := length.

Definition unit (this : loc) : M loc :=
  len <- length this ;; divide this (OScalar len).

Definition min (this : loc) : M number :=
  tx <- get this x ;; ty <- get this y ;; tz <- get this z ;;
  ret (min2 (min2 tx ty) tz).

Definition max (this : loc) : M number :=
  tx <- get this x ;; ty <- get this y ;; tz <- get this z ;;
  ret (max2 (max2 tx ty) tz).

Definition toArray (this : loc) (n : jsval) : M (list number) :=
  tx <- get this x ;; ty <- get this y ;; tz <- get this z ;;
  ret (slice0 [tx; ty; tz] (or_default n three)).

Definition clone (this : loc) : M loc :=
  tx <- get this x ;; ty <- get this y ;; tz <- get this z ;;
  new_Vector (Number tx) (Number ty) (Number tz).

Definition init (this : loc) (ax ay az : number) : M loc :=
  set_x this ax ;; set_y this ay ;; set_z this az ;; ret this.

(** ** Static methods *)

(** The static [add], [subtract], [multiply] and [divide]: the fields of
    [c] are assigned one after the other, each right-hand side being read
    from the heap as it is at that point. *)
Definition static_arith (op : number -> number -> number)
    (a : loc) (b : operand) (out : option loc) : M loc :=
  c <- default_out out ;;
  match b with
  | OVector b =>
      (ax <- get a x ;; bx <- get b x ;; set_x c (op ax bx)) ;;
      (ay <- get a y ;; by_ <- get b y ;; set_y c (op ay by_)) ;;
      (az <- get a z ;; bz <- get b z ;; set_z c (op az bz)) ;;
      ret c
  | OScalar b =>
      (ax <- get a x ;; set_x c (op ax b)) ;;
      (ay <- get a y ;; set_y c (op ay b)) ;;
      (az <- get a z ;; set_z c (op az b)) ;;
      ret c
  end.

Definition Vector_add := static_arith Num.add.
Definition Vector_subtract := static_arith Num.sub.
Definition Vector_multiply := static_arith Num.mul.
Definition Vector_divide := static_arith Num.div.

Definition Vector_negative (a : loc) (out : option loc) : M loc :=
  b <- default_out out ;;
  (ax <- get a x ;; set_x b (neg ax)) ;;
  (ay <- get a y ;; set_y b (neg ay)) ;;
  (az <- get a z ;; set_z b (neg az)) ;;
  ret b.

Definition Vector_cross (a b : loc) (out : option loc) : M loc :=
  c <- default_out out ;;
  (ay <- get a y ;; bz <- get b z ;; az <- get a z ;; by_ <- get b y ;;
   set_x c (Num.sub (Num.mul ay bz) (Num.mul az by_))) ;;
  (az <- get a z ;; bx <- get b x ;; ax <- get a x ;; bz <- get b z ;;
   set_y c (Num.sub (Num.mul az bx) (Num.mul ax bz))) ;;
  (ax <- get a x ;; by_ <- get b y ;; ay <- get a y ;; bx <- get b x ;;
   set_z c (Num.sub (Num.mul ax by_) (Num.mul ay bx))) ;;
  ret c.

Definition Vector_unit (a : loc) (out : option loc) : M loc :=
  b <- default_out out ;;
  len <- length a ;;
  (ax <- get a x ;; set_x b (Num.div ax len)) ;;
  (ay <- get a y ;; set_y b (Num.div ay len)) ;;
  (az <- get a z ;; set_z b (Num.div az len)) ;;
  ret b.

Definition Vector_min (a b : loc) : M loc :=
  ax <- get a x ;; bx <- get b x ;;
  ay <- get a y ;; by_ <- get b y ;;
  az <- get a z ;; bz <- get b z ;;
  new_Vector (Number (min2 ax bx)) (Number (min2 ay by_)) (Number (min2 az bz)).

Definition Vector_max (a b : loc) : M loc :=
  ax <- get a x ;; bx <- get b x ;;
  ay <- get a y ;; by_ <- get b y ;;
  az <- get a z ;; bz <- get b z ;;
  new_Vector (Number (max2 ax bx)) (Number (max2 ay by_)) (Number (max2 az bz)).

Definition Vector_lerp (a b : loc) (t : number) : M loc :=
  a1 <- multiply a (OScalar (Num.sub one t)) ;;
  b1 <- multiply b (OScalar t) ;;
  add a1 (OVector b1).

(** [a[i]] on an array of numbers: [undefined] past the end. *)
Definition index (a : list number) (i : nat) : jsval :=
  match a !! i with
  | Some n => Number n
  | None => Undefined
  end.

Definition Vector_fromArray (a : list number) : M loc :=
  new_Vector (index a 0) (index a 1) (index a 2).

Definition Vector_dot (a b : loc) : M number := dot a b.
Definition Vector_magnitude (a : loc) : M number := length a.
Definition Vector_equals (a b : loc) : M bool := equals a b.

(** ** Methods that call the trigonometric functions of [Math] *)

(** [Math.cos], [Math.sin], [Math.asin], [Math.acos] and [Math.atan2]
    belong to the host, not to the class: they are parameters. *)
Section Trigonometry.

Variables Math_cos Math_sin Math_asin Math_acos : number -> number.
Variable Math_atan2 : number -> number -> number.

(** [src/index.js]: [fromAngles(theta, phi)]. *)
Definition Vector_fromAngles (theta phi : number) : M loc :=
  new_Vector
    (Number (Num.mul (Math_cos theta) (Math_cos phi)))
    (Number (Math_sin phi))
    (Number (Num.mul (Math_sin theta) (Math_cos phi))).

(** The sibling module: [fromPhiTheta(phi, theta)]. *)
Definition Vector_fromPhiTheta (phi theta : number) : M loc :=
  new_Vector
    (Number (Num.mul (Math_cos phi) (Math_cos theta)))
    (Number (Math_sin phi))
    (Number (Num.mul (Math_cos phi) (Math_sin theta))).

Definition angleTo (this a : loc) : M number :=
  d <- dot this a ;; l1 <- length this ;; l2 <- length a ;;
  ret (Math_acos (Num.div d (Num.mul l1 l2))).

Definition Vector_angleBetween (a b : loc) : M number := angleTo a b.

(** [toAngles()], spelled [toPhiTheta()] in the sibling module: the
    record [{theta, phi}] as the pair [(theta, phi)]. *)
Definition toAngles (this : loc) : M (number * number) :=
  tz <- get this z ;; tx <- get this x ;;
  ty <- get this y ;; len <- length this ;;
  ret (Math_atan2 tz tx, Math_asin (Num.div ty len)).

End Trigonometry.

(** ** Calling an instance method by name *)

(** Every instance method of the class, with its arguments. *)
Inductive method :=
  | m_negative
  | m_add (v : operand)
  | m_subtract (v : operand)
  | m_multiply (v : operand)
  | m_divide (v : operand)
  | m_equals (v : loc)
  | m_dot (v : loc)
  | m_cross (v : loc)
  | m_length
  | m_unit
  | m_min
  | m_max
  | m_toAngles
  | m_angleTo (a : loc)
  | m_toArray (n : jsval)
  | m_clone
  | m_init (ax ay az : number).

(** What a method hands back: a reference, a number, a boolean, an
    array of numbers or the [{theta, phi}] record. *)
Inductive result :=
  | r_vector (l : loc)
  | r_number (n : number)
  | r_boolean (b : bool)
  | r_array (a : list number)
  | r_angles (theta phi : number).

Definition fmap_M {A B} (f : A -> B) (m : M A) : M B :=
  a <- m ;; ret (f a).

Section Dispatch.

Variables Math_asin Math_acos : number -> number.
Variable Math_atan2 : number -> number -> number.

Definition call (m : method) (this : loc) : M result :=
  match m with
  | m_negative => fmap_M r_vector (negative this)
  | m_add v => fmap_M r_vector (add this v)
  | m_subtract v => fmap_M r_vector (subtract this v)
  | m_multiply v => fmap_M r_vector (multiply this v)
  | m_divide v => fmap_M r_vector (divide this v)
  | m_equals v => fmap_M r_boolean (equals this v)
  | m_dot v => fmap_M r_number (dot this v)
  | m_cross v => fmap_M r_vector (cross this v)
  | m_length => fmap_M r_number (length this)
  | m_unit => fmap_M r_vector (unit this)
  | m_min => fmap_M r_number (min this)
  | m_max => fmap_M r_number (max this)
  | m_toAngles =>
      fmap_M (fun tp => r_angles (fst tp) (snd tp))
        (toAngles Math_asin Math_atan2 this)
  | m_angleTo a => fmap_M r_number (angleTo Math_acos this a)
  | m_toArray n => fmap_M r_array (toArray this n)
  | m_clone => fmap_M r_vector (clone this)
  | m_init ax ay az => fmap_M r_vector (init this ax ay az)
  end.

End Dispatch.

(** The references a call needs to find in the heap. *)
Definition operand_ok (h : heap) (b : operand) : Prop :=
  match b with
  | OVector l => is_Some (h !! l)
  | OScalar _ => True
  end.

Definition args_ok (h : heap) (m : method) : Prop :=
  match m with
  | m_add v | m_subtract v | m_multiply v | m_divide v => operand_ok h v
  | m_equals l | m_dot l | m_cross l | m_angleTo l => is_Some (h !! l)
  | _ => True
  end.


(** ** Field-level descriptions of the results *)

(** The vector an operand stands for: itself, or the scalar in all three
    components. *)
Definition broadcast (n : number) : Vector := mkVector n n n.

Definition operand_value (h : heap) (b : operand) : option Vector :=
  match b with
  | OVector l => h !! l
  | OScalar n => Some (broadcast n)
  end.

Definition zip (op : number -> number -> number) (a b : Vector) : Vector :=
  mkVector (op (x a) (x b)) (op (y a) (y b)) (op (z a) (z b)).

Definition vmap (f : number -> number) (a : Vector) : Vector :=
  mkVector (f (x a)) (f (y a)) (f (z a)).

(** What the constructor makes of three computed numbers. *)
Definition coerce (v : Vector) : Vector :=
  Vector_of (Number (x v)) (Number (y v)) (Number (z v)).

Definition vec_equals (a b : Vector) : bool :=
  strict_eq (x a) (x b) && strict_eq (y a) (y b) && strict_eq (z a) (z b).

Definition has_nan (v : Vector) : bool :=
  is_nan (x v) || is_nan (y v) || is_nan (z v).

Definition valid_vector (v : Vector) : bool :=
  valid (x v) && valid (y v) && valid (z v).

Definition vec_dot (a b : Vector) : number :=
  Num.add (Num.add (Num.mul (x a) (x b)) (Num.mul (y a) (y b)))
          (Num.mul (z a) (z b)).

Definition vec_length (a : Vector) : number := Num.sqrt (vec_dot a a).

(** The vector [Vector.lerp] hands back: the two scaled vectors and
    their sum each come out of the constructor; [t] enters the products
    as it is. *)
Definition lerp_value (va vb : Vector) (t : number) : Vector :=
  coerce (zip Num.add
            (coerce (zip Num.mul va (broadcast (Num.sub one t))))
            (coerce (zip Num.mul vb (broadcast t)))).

Definition zero_vector : Vector := mkVector pzero pzero pzero.
Definition nan_vector : Vector := mkVector NaN NaN NaN.

(** ** The specification's readings, for comparison with the code *)

(** Construction where only a missing argument defaults to [0]. *)
Definition or_default_undefined_only (v : jsval) (d : number) : number :=
  match v with
  | Undefined => d
  | Number n => n
  end.

Definition Vector_of_undefined_only (ax ay az : jsval) : Vector :=
  mkVector (or_default_undefined_only ax pzero)
           (or_default_undefined_only ay pzero)
           (or_default_undefined_only az pzero).

(** [toArray(n)] as the first [n] components with [n] clamped to
    [0..3], a missing or zero [n] standing for [3]. *)
Definition clamp03 (i : intinf) : nat :=
  match i with
  | NegInf => 0
  | Fin r => Z.to_nat (Z.max 0 (Z.min r 3))
  | PosInf => 3
  end.

Definition toArray_clamped (v : Vector) (n : jsval) : list number :=
  let all := [x v; y v; z v] in
  match n with
  | Undefined => all
  | Number k =>
      if strict_eq k pzero then all
      else firstn (clamp03 (to_integer_or_infinity k)) all
  end.

(** [0 <= n], for an argument that is present. *)
Definition nonnegative (n : jsval) : bool :=
  match n with
  | Undefined => true
  | Number k => SFleb pzero k
  end.

(** ** Expressions of the specification's testable properties *)

(** [a.add(a.negative()).equals(new Vector(0, 0, 0))]. *)
Definition additive_inverse (a : loc) : M bool :=
  n <- negative a ;;
  s <- add a (OVector n) ;;
  o <- new_Vector (Number pzero) (Number pzero) (Number pzero) ;;
  equals s o.

(** [Vector.lerp(a, b, 0).equals(a)] and [Vector.lerp(a, b, 1).equals(b)]. *)
Definition lerp_start (a b : loc) : M bool :=
  r <- Vector_lerp a b pzero ;; equals r a.

Definition lerp_end (a b : loc) : M bool :=
  r <- Vector_lerp a b one ;; equals r b.

(** The value a computation returns, the heap left aside. *)
Definition value {A} (r : option (A * list Vector)) : option A :=
  match r with
  | Some (a, _) => Some a
  | None => None
  end.

(** [Vector.add(a, Vector.negative(a)).equals(new Vector(0, 0, 0))], the
    same property through the static forms. *)
Definition additive_inverse_static (a : loc) : M bool :=
  n <- Vector_negative a None ;;
  s <- Vector_add a (OVector n) None ;;
  o <- new_Vector (Number pzero) (Number pzero) (Number pzero) ;;
  equals s o.

Definition is_finite (n : number) : bool :=
  match n with
  | S754_zero _ | S754_finite _ _ _ => true
  | _ => false
  end.

Definition finite_vector (v : Vector) : bool :=
  is_finite (x v) && is_finite (y v) && is_finite (z v).

(** A vector with a NaN component, built the way a caller can:
    [new Vector(0, 0, 0).init(NaN, 0, 0)], then a second vector, then
    [Vector.lerp(a, b, 0).equals(a)]. *)
Definition lerp_start_on_nan : M bool :=
  a <- new_Vector (Number pzero) (Number pzero) (Number pzero) ;;
  a <- init a NaN pzero pzero ;;
  b <- new_Vector (Number one) (Number one) (Number one) ;;
  lerp_start a b.

(** An argument that is missing or falsy, and one that is NaN. *)
Definition falsy (v : jsval) : bool :=
  match v with
  | Undefined => true
  | Number n => negb (truthy n)
  end.

Definition nan_argument (v : jsval) : bool :=
  match v with
  | Undefined => false
  | Number n => is_nan n
  end.

(** ** Calling a static form by name *)





(** The instance methods that hand back a Vector other than [this]. *)
Definition returns_new_vector (m : method) : bool :=
  match m with
  | m_negative | m_add _ | m_subtract _ | m_multiply _ | m_divide _
  | m_cross _ | m_unit | m_clone => true
  | _ => false
  end.

(** The four arithmetic operations: the operator, the static form and
    the instance form. *)
Definition arithmetic_forms :
    list ((number -> number -> number)
          * (loc -> operand -> option loc -> M loc)
          * (loc -> operand -> M loc)) :=
  [ (Num.add, Vector_add, add);
    (Num.sub, Vector_subtract, subtract);
    (Num.mul, Vector_multiply, multiply);
    (Num.div, Vector_divide, divide) ].

(** ** The repository's tests *)

(** [tests/Vector.js] has [v1 = (1, 2, 3)], here at reference 0, and
    [v2 = (4, 5, 6)], at reference 1. *)
Definition test_heap : list Vector :=
  [mkVector one (of_Z 2) three; mkVector (of_Z 4) (of_Z 5) (of_Z 6)].

(** [r.equals(new Vector(ex, ey, ez))] for the result [r] of a call. *)
Definition expect (r : M loc) (ex ey ez : Z) : M bool :=
  s <- r ;;
  e <- new_Vector (Number (of_Z ex)) (Number (of_Z ey)) (Number (of_Z ez)) ;;
  equals s e.

(** ** Further vocabulary for results *)

(** A number the constructor can leave in a field: not NaN, not [-0]. *)
Definition clean (n : number) : bool :=
  match n with
  | S754_nan | S754_zero true => false
  | _ => true
  end.

Definition clean_vector (v : Vector) : bool :=
  clean (x v) && clean (y v) && clean (z v).

(** NaN, or a number whose sign bit is clear. *)
Definition nonneg_or_nan (n : number) : bool :=
  match n with
  | S754_nan => true
  | S754_zero s | S754_infinity s | S754_finite s _ _ => negb s
  end.

(** The cross product of two triples of fields, operand order as in the
    source. *)
Definition vec_cross (a b : Vector) : Vector :=
  mkVector
    (Num.sub (Num.mul (y a) (z b)) (Num.mul (z a) (y b)))
    (Num.sub (Num.mul (z a) (x b)) (Num.mul (x a) (z b)))
    (Num.sub (Num.mul (x a) (y b)) (Num.mul (y a) (x b))).

(** What [Vector.cross(a, b, a)] leaves in [a]: the second and third
    components are computed from fields already overwritten. *)
Definition vec_cross_into_a (a b : Vector) : Vector :=
  let cx := Num.sub (Num.mul (y a) (z b)) (Num.mul (z a) (y b)) in
  let cy := Num.sub (Num.mul (z a) (x b)) (Num.mul cx (z b)) in
  let cz := Num.sub (Num.mul cx (y b)) (Num.mul cy (x b)) in
  mkVector cx cy cz.

(** ** [fromVector] *)

(** The argument of [fromVector]: an object read at [x], [y] and [z],
    any of which may be missing. *)
Record fields := mkFields { fx : jsval; fy : jsval; fz : jsval }.

(** [v ?? d]. *)
Definition nullish_default (v : jsval) (d : number) : jsval :=
  match v with
  | Undefined => Number d
  | Number _ => v
  end.

(** [src/index.js]: [new Vector(v.x, v.y, v.z ?? 0)]. *)
Definition Vector_fromVector (v : fields) : M loc :=
  new_Vector (fx v) (fy v) (nullish_default (fz v) pzero).

(** The sibling module: [new Vector(v.x || 0, v.y || 0, v.z || 0)]. *)
Definition Vector_fromVector_sibling (v : fields) : M loc :=
  new_Vector (Number (or_default (fx v) pzero))
             (Number (or_default (fy v) pzero))
             (Number (or_default (fz v) pzero)).

(** The sibling module's static [angleTo(a, b)], with its own body. *)
Definition Vector_angleTo (Math_acos : number -> number) (a b : loc)
    : M number :=
  d <- dot a b ;; l1 <- length a ;; l2 <- length b ;;
  ret (Math_acos (Num.div d (Num.mul l1 l2))).

(** ** Further expressions over the methods *)

(** [a.cross(b).equals(b.cross(a).negative())]. *)
Definition cross_anticommutes (a b : loc) : M bool :=
  c1 <- cross a b ;;
  c2 <- cross b a ;;
  n <- negative c2 ;;
  equals c1 n.

(** [a.subtract(a).equals(new Vector(0, 0, 0))]. *)
Definition subtract_self (a : loc) : M bool :=
  s <- subtract a (OVector a) ;;
  o <- new_Vector (Number pzero) (Number pzero) (Number pzero) ;;
  equals s o.

(** [Vector.fromArray(v.toArray(n)).equals(v)]. *)
Definition array_round_trip (v : loc) (n : jsval) : M bool :=
  arr <- toArray v n ;;
  r <- Vector_fromArray arr ;;
  equals r v.

(** [a.negative().negative().equals(a)]. *)
Definition negative_twice (a : loc) : M bool :=
  n1 <- negative a ;; n2 <- negative n1 ;; equals n2 a.

(** [a.multiply(1).equals(a)] and [a.add(0).equals(a)]. *)
Definition multiply_by_one (a : loc) : M bool :=
  r <- multiply a (OScalar one) ;; equals r a.

Definition add_zero (a : loc) : M bool :=
  r <- add a (OScalar pzero) ;; equals r a.

(** [v.init(x, y, z).toArray()]. *)
Definition init_then_toArray (this : loc) (ax ay az : number)
    : M (list number) :=
  v <- init this ax ay az ;; toArray v Undefined.

(** [c = a.clone(); a.init(x, y, z); c.toArray()]. *)
Definition clone_then_init (a : loc) (ax ay az : number) : M (list number) :=
  c <- clone a ;; init a ax ay az ;; toArray c Undefined.

(** [Vector.negative(a, a); Vector.negative(a, a)]. *)
Definition negate_in_place_twice (a : loc) : M loc :=
  Vector_negative a (Some a) ;; Vector_negative a (Some a).

(** [a.op(b).equals(Vector.op(a, b))] for an arithmetic operation given
    by its two forms. *)
Definition forms_agree
    (Vector_op : loc -> operand -> option loc -> M loc)
    (instance_op : loc -> operand -> M loc)
    (a : loc) (b : operand) : M bool :=
  i <- instance_op a b ;;
  s <- Vector_op a b None ;;
  equals i s.

(** * Facts about numbers *)

Lemma strict_eq_refl (a : number) : strict_eq a a = negb (is_nan a).
Proof.
  destruct a as [s|s| |s m e]; try (destruct s; reflexivity); try reflexivity.
  unfold strict_eq, SFeqb, SFcompare.
  rewrite Z.compare_refl, Pos.compare_cont_refl.
  destruct s; reflexivity.
Qed.

Lemma mul_comm (a b : number) : Num.mul a b = Num.mul b a.
Proof.
  destruct a as [sa|sa| |sa ma ea], b as [sb|sb| |sb mb eb]; simpl;
    try reflexivity; try (rewrite xorb_comm; reflexivity).
  unfold Num.mul, SFmul.
  rewrite xorb_comm, Pos.mul_comm, Z.add_comm. reflexivity.
Qed.

Lemma cond_Zopp_negb (s : bool) (n : Z) :
  (cond_Zopp s n + cond_Zopp (negb s) n = 0)%Z.
Proof. destruct s; simpl; lia. Qed.

(** [a + (-a)] is a zero or NaN, never a truthy number. *)
Lemma add_neg_falsy (a : number) : truthy (Num.add a (Num.neg a)) = false.
Proof.
  destruct a as [s|s| |s m e]; try (destruct s; reflexivity); try reflexivity.
  unfold Num.add, Num.neg, SFadd, SFopp.
  rewrite Z.min_id, cond_Zopp_negb. reflexivity.
Qed.

(** Multiplying a mantissa by that of [1], which is [2^52]. *)
Lemma mul_pow52 (m : positive) :
  (m * 4503599627370496)%positive = Pos.iter xO m 52.
Proof. rewrite Pos.mul_comm. reflexivity. Qed.

Lemma digits_shl52 (m : positive) :
  Zpos (digits2_pos (Pos.iter xO m 52)) = (Zpos (digits2_pos m) + 52)%Z.
Proof. cbn [Pos.iter digits2_pos]. lia. Qed.

Lemma shr_shl52 (m : positive) :
  SpecFloat.iter_pos shr_1 52
    (Build_shr_record (Zpos (Pos.iter xO m 52)) false false)
  = Build_shr_record (Zpos m) false false.
Proof. reflexivity. Qed.

(** [a * 1] is [a] for every number a binary64 can hold: the product of
    the mantissas is shifted back by 52 bits without loss. *)
Lemma mul_one_r (a : number) : valid a = true -> Num.mul a one = a.
Proof.
  destruct a as [s|s| |s m e]; intros Hv;
    try (destruct s; reflexivity); try reflexivity.
  unfold valid, valid_binary, bounded, canonical_mantissa in Hv.
  apply andb_true_iff in Hv as [Hc He].
  apply Z.eqb_eq in Hc.
  change (Num.mul (S754_finite s m e) one)
    with (binary_round_aux prec emax (xorb s false)
            (Zpos (m * 4503599627370496)) (e + -52) loc_Exact).
  rewrite mul_pow52, xorb_false_r.
  unfold binary_round_aux, shr_fexp.
  cbn [Zdigits2 shr_record_of_loc].
  rewrite digits_shl52.
  replace (Z.pos (digits2_pos m) + 52 + (e + -52))%Z
    with (Z.pos (digits2_pos m) + e)%Z by lia.
  rewrite Hc.
  replace (e - (e + -52))%Z with 52%Z by lia.
  unfold shr at 1. rewrite shr_shl52.
  cbn [shr_m loc_of_shr_record round_nearest_even Zdigits2 shr_record_of_loc].
  replace (e + -52 + 52)%Z with e by lia.
  rewrite Hc, Z.sub_diag. cbn [shr shr_m].
  rewrite He. reflexivity.
Qed.

(** [a * 0] is a zero or NaN. *)
Lemma mul_zero_falsy (a : number) : truthy (Num.mul a pzero) = false.
Proof. destruct a as [s|s| |s m e]; reflexivity. Qed.

(** ** The constructor's [|| 0] *)

Lemma or_default_falsy (n : number) :
  truthy n = false -> or_default (Number n) pzero = pzero.
Proof. intros H. simpl. rewrite H. reflexivity. Qed.

Lemma or_default_truthy (n : number) :
  truthy n = true -> or_default (Number n) pzero = n.
Proof. intros H. simpl. rewrite H. reflexivity. Qed.

Lemma or_default_idem (v : jsval) :
  or_default (Number (or_default v pzero)) pzero = or_default v pzero.
Proof.
  destruct v as [|n]; [reflexivity|].
  simpl. destruct (truthy n) eqn:E; [rewrite E|]; reflexivity.
Qed.

(** A coerced number is never [-0], so adding [+0] leaves it alone. *)
Lemma add_pzero_r (v : jsval) :
  Num.add (or_default v pzero) pzero = or_default v pzero.
Proof.
  destruct v as [|[s|s| |s m e]]; try reflexivity; destruct s; reflexivity.
Qed.

Lemma add_pzero_l (v : jsval) :
  Num.add pzero (or_default v pzero) = or_default v pzero.
Proof.
  destruct v as [|[s|s| |s m e]]; try reflexivity; destruct s; reflexivity.
Qed.

(** A coerced number is [===] to the original unless that was NaN. *)
Lemma strict_eq_or_default (n : number) :
  strict_eq (or_default (Number n) pzero) n = negb (is_nan n).
Proof.
  destruct (truthy n) eqn:E.
  - rewrite or_default_truthy by exact E. apply strict_eq_refl.
  - rewrite or_default_falsy by exact E.
    destruct n as [s|s| |s m e]; try discriminate; reflexivity.
Qed.

(** One component of [a.add(a.negative())]. *)
Lemma add_negative_component (a : number) :
  or_default
    (Number (Num.add a (or_default (Number (Num.neg a)) pzero))) pzero
  = pzero.
Proof.
  destruct a as [s|s| |s m e]; try (destruct s; reflexivity); try reflexivity.
  rewrite (or_default_truthy (Num.neg (S754_finite s m e))) by reflexivity.
  apply or_default_falsy, add_neg_falsy.
Qed.

(** One component of [lerp(a, b, 0)] and of [lerp(a, b, 1)]. *)
Lemma lerp_component_0 (a b : number) :
  valid a = true ->
  or_default
    (Number (Num.add
       (or_default (Number (Num.mul a (Num.sub one pzero))) pzero)
       (or_default (Number (Num.mul b pzero)) pzero))) pzero
  = or_default (Number a) pzero.
Proof.
  intros Ha.
  change (Num.sub one pzero) with one.
  rewrite (mul_one_r a Ha).
  rewrite (or_default_falsy (Num.mul b pzero)) by apply mul_zero_falsy.
  rewrite add_pzero_r. apply or_default_idem.
Qed.

Lemma lerp_component_1 (a b : number) :
  valid b = true ->
  or_default
    (Number (Num.add
       (or_default (Number (Num.mul a (Num.sub one one))) pzero)
       (or_default (Number (Num.mul b one)) pzero))) pzero
  = or_default (Number b) pzero.
Proof.
  intros Hb.
  change (Num.sub one one) with pzero.
  rewrite (mul_one_r b Hb).
  rewrite (or_default_falsy (Num.mul a pzero)) by apply mul_zero_falsy.
  rewrite add_pzero_l. apply or_default_idem.
Qed.

(** * Facts about the heap *)

Lemma get_ok (h : heap) (l : loc) (v : Vector) (f : Vector -> number) :
  h !! l = Some v -> get l f h = Some (f v, h).
Proof. intros H. unfold get. rewrite H. reflexivity. Qed.

Lemma lookup_alloc_old (h : heap) (l : loc) (v w : Vector) :
  h !! l = Some v -> (h ++ [w]) !! l = Some v.
Proof.
  intros H. rewrite lookup_app_l; [exact H|].
  apply lookup_lt_Some in H. exact H.
Qed.

Lemma lookup_alloc_new (h : heap) (w : Vector) :
  (h ++ [w]) !! (List.length h) = Some w.
Proof. apply list_lookup_middle. reflexivity. Qed.

Lemma lookup_alloc_frame (h : heap) (l : loc) (w : Vector) :
  l < List.length h -> (h ++ [w]) !! l = h !! l.
Proof. intros H. apply lookup_app_l. exact H. Qed.

Lemma store_alloc_new (h : heap) (v w : Vector) :
  <[List.length h := w]> (h ++ [v]) = h ++ [w].
Proof.
  replace (List.length h) with (List.length h + 0) by lia.
  rewrite insert_app_r. reflexivity.
Qed.

(** Rewriting steps for a run of field reads and writes. *)
Ltac heap_step :=
  first
    [ rewrite list_lookup_insert_eq by (rewrite ?length_insert; assumption)
    | rewrite list_lookup_insert_ne by congruence
    | match goal with
      | H : ?h !! ?l = Some _ |- context [?h !! ?l] => rewrite H
      end
    | rewrite list_insert_insert_eq
    | progress cbn [x y z] ].

Ltac heap_run :=
  unfold get, set_x, set_y, set_z, bind, ret; repeat heap_step.

(** Two hypotheses about one reference speak of the same object. *)
Ltac same_object :=
  repeat match goal with
         | H1 : ?h !! ?l = Some ?u, H2 : ?h !! ?l = Some ?w |- _ =>
             assert (u = w) by congruence; subst; clear H2
         end.

(** * What each method computes *)

Lemma new_Vector_spec (ax ay az : jsval) (h : heap) :
  new_Vector ax ay az h = Some (List.length h, h ++ [Vector_of ax ay az]).
Proof. reflexivity. Qed.

Lemma instance_arith_spec op (h : heap) (this : loc) (b : operand)
    (va vb : Vector) :
  h !! this = Some va -> operand_value h b = Some vb ->
  instance_arith op this b h
  = Some (List.length h, h ++ [coerce (zip op va vb)]).
Proof.
  intros Ha Hb. destruct b as [l|n]; cbn [operand_value] in Hb.
  - unfold instance_arith, bind.
    repeat (erewrite get_ok by eassumption). reflexivity.
  - injection Hb as <-. unfold instance_arith, bind.
    repeat (erewrite get_ok by eassumption). reflexivity.
Qed.

Lemma negative_spec (h : heap) (this : loc) (va : Vector) :
  h !! this = Some va ->
  negative this h = Some (List.length h, h ++ [coerce (vmap neg va)]).
Proof.
  intros Ha. unfold negative, bind.
  repeat (erewrite get_ok by eassumption). reflexivity.
Qed.

Lemma clone_spec (h : heap) (this : loc) (va : Vector) :
  h !! this = Some va ->
  clone this h = Some (List.length h, h ++ [coerce va]).
Proof.
  intros Ha. unfold clone, bind.
  repeat (erewrite get_ok by eassumption). reflexivity.
Qed.


Lemma equals_spec (h : heap) (a b : loc) (va vb : Vector) :
  h !! a = Some va -> h !! b = Some vb ->
  equals a b h = Some (vec_equals va vb, h).
Proof.
  intros Ha Hb. unfold equals, vec_equals, bind.
  repeat (erewrite get_ok by eassumption).
  destruct (strict_eq (x va) (x vb)); [|reflexivity].
  repeat (erewrite get_ok by eassumption).
  destruct (strict_eq (y va) (y vb)); [|reflexivity].
  repeat (erewrite get_ok by eassumption). reflexivity.
Qed.

Lemma dot_spec (h : heap) (a b : loc) (va vb : Vector) :
  h !! a = Some va -> h !! b = Some vb ->
  dot a b h = Some (vec_dot va vb, h).
Proof.
  intros Ha Hb. unfold dot, bind.
  repeat (erewrite get_ok by eassumption). reflexivity.
Qed.

Lemma length_spec (h : heap) (a : loc) (va : Vector) :
  h !! a = Some va -> length a h = Some (vec_length va, h).
Proof.
  intros Ha. unfold length, bind.
  rewrite (dot_spec h a a va va Ha Ha). reflexivity.
Qed.

Lemma unit_spec (h : heap) (this : loc) (va : Vector) :
  h !! this = Some va ->
  unit this h
  = Some (List.length h,
          h ++ [coerce (vmap (fun c => Num.div c (vec_length va)) va)]).
Proof.
  intros Ha. unfold unit, bind.
  rewrite (length_spec h this va Ha).
  unfold divide.
  erewrite instance_arith_spec by (try eassumption; reflexivity).
  reflexivity.
Qed.

Lemma init_spec (h : heap) (this : loc) (v : Vector) (ax ay az : number) :
  h !! this = Some v ->
  init this ax ay az h = Some (this, <[this := mkVector ax ay az]> h).
Proof.
  intros Ha.
  assert (Hlt : this < List.length h) by (eapply lookup_lt_Some; eassumption).
  unfold init. heap_run. reflexivity.
Qed.

(** The static arithmetic forms with an output object: whatever [c] is,
    also [a] or [b] themselves, it ends up holding the component-wise
    result of the values [a] and [b] had before the call. *)
Lemma static_arith_spec op (h : heap) (a c : loc) (b : operand)
    (va vb vc : Vector) :
  h !! a = Some va -> operand_value h b = Some vb -> h !! c = Some vc ->
  static_arith op a b (Some c) h = Some (c, <[c := zip op va vb]> h).
Proof.
  intros Ha Hb Hc.
  assert (Hlt : c < List.length h) by (eapply lookup_lt_Some; eassumption).
  unfold static_arith, default_out.
  destruct b as [b|n]; cbn [operand_value] in Hb.
  - destruct (decide (a = c)) as [->|Hac], (decide (b = c)) as [->|Hbc];
      same_object; heap_run; reflexivity.
  - injection Hb as <-.
    destruct (decide (a = c)) as [->|Hac];
      same_object; heap_run; reflexivity.
Qed.

(** Without an output object the result goes to a fresh one. *)
Lemma static_arith_fresh op (h : heap) (a : loc) (b : operand)
    (va vb : Vector) :
  h !! a = Some va -> operand_value h b = Some vb ->
  static_arith op a b None h
  = Some (List.length h, h ++ [zip op va vb]).
Proof.
  intros Ha Hb.
  change (static_arith op a b None h)
    with (static_arith op a b (Some (List.length h))
            (h ++ [Vector_of (Number pzero) (Number pzero) (Number pzero)])).
  erewrite static_arith_spec.
  - rewrite store_alloc_new. reflexivity.
  - apply lookup_alloc_old. exact Ha.
  - destruct b as [b|n]; cbn [operand_value] in *;
      [apply lookup_alloc_old|]; exact Hb.
  - apply lookup_alloc_new.
Qed.

Lemma Vector_negative_spec (h : heap) (a c : loc) (va vc : Vector) :
  h !! a = Some va -> h !! c = Some vc ->
  Vector_negative a (Some c) h = Some (c, <[c := vmap neg va]> h).
Proof.
  intros Ha Hc.
  assert (Hlt : c < List.length h) by (eapply lookup_lt_Some; eassumption).
  unfold Vector_negative, default_out.
  destruct (decide (a = c)) as [->|Hac]; same_object; heap_run; reflexivity.
Qed.

Lemma Vector_negative_fresh (h : heap) (a : loc) (va : Vector) :
  h !! a = Some va ->
  Vector_negative a None h = Some (List.length h, h ++ [vmap neg va]).
Proof.
  intros Ha.
  change (Vector_negative a None h)
    with (Vector_negative a (Some (List.length h))
            (h ++ [Vector_of (Number pzero) (Number pzero) (Number pzero)])).
  erewrite Vector_negative_spec.
  - rewrite store_alloc_new. reflexivity.
  - apply lookup_alloc_old. exact Ha.
  - apply lookup_alloc_new.
Qed.

Lemma Vector_unit_spec (h : heap) (a c : loc) (va vc : Vector) :
  h !! a = Some va -> h !! c = Some vc ->
  Vector_unit a (Some c) h
  = Some (c, <[c := vmap (fun n => Num.div n (vec_length va)) va]> h).
Proof.
  intros Ha Hc.
  assert (Hlt : c < List.length h) by (eapply lookup_lt_Some; eassumption).
  unfold Vector_unit, default_out.
  unfold bind at 1. cbn [ret]. unfold bind at 1.
  rewrite (length_spec h a va Ha).
  destruct (decide (a = c)) as [->|Hac]; same_object; heap_run; reflexivity.
Qed.

Lemma Vector_unit_fresh (h : heap) (a : loc) (va : Vector) :
  h !! a = Some va ->
  Vector_unit a None h
  = Some (List.length h,
          h ++ [vmap (fun n => Num.div n (vec_length va)) va]).
Proof.
  intros Ha.
  change (Vector_unit a None h)
    with (Vector_unit a (Some (List.length h))
            (h ++ [Vector_of (Number pzero) (Number pzero) (Number pzero)])).
  erewrite Vector_unit_spec.
  - rewrite store_alloc_new. reflexivity.
  - apply lookup_alloc_old. exact Ha.
  - apply lookup_alloc_new.
Qed.



Lemma Vector_lerp_spec (h : heap) (a b : loc) (va vb : Vector) (t : number) :
  h !! a = Some va -> h !! b = Some vb ->
  exists h',
    Vector_lerp a b t h = Some (S (S (List.length h)), h')
    /\ h' !! S (S (List.length h)) = Some (lerp_value va vb t)
    /\ forall l, l < List.length h -> h' !! l = h !! l.
Proof.
  intros Ha Hb.
  set (A1 := coerce (zip Num.mul va (broadcast (Num.sub one t)))).
  set (B1 := coerce (zip Num.mul vb (broadcast t))).
  exists (((h ++ [A1]) ++ [B1]) ++ [lerp_value va vb t]).
  assert (Hl1 : List.length (h ++ [A1]) = S (List.length h))
    by (rewrite length_app; simpl; lia).
  assert (Hl2 : List.length ((h ++ [A1]) ++ [B1]) = S (S (List.length h)))
    by (rewrite length_app, Hl1; simpl; lia).
  split; [|split].
  - unfold Vector_lerp, multiply, add, bind.
    rewrite (instance_arith_spec Num.mul h a (OScalar (Num.sub one t)) va
               (broadcast (Num.sub one t)))
      by (assumption || reflexivity).
    fold A1. cbv beta iota.
    rewrite (instance_arith_spec Num.mul (h ++ [A1]) b (OScalar t) vb
               (broadcast t))
      by (first [apply lookup_alloc_old; assumption | reflexivity]).
    fold B1. cbv beta iota.
    rewrite (instance_arith_spec Num.add ((h ++ [A1]) ++ [B1])
               (List.length h) (OVector (List.length (h ++ [A1]))) A1 B1).
    + rewrite Hl2. reflexivity.
    + apply lookup_alloc_old, lookup_alloc_new.
    + apply lookup_alloc_new.
  - rewrite <- Hl2. apply lookup_alloc_new.
  - intros l Hl.
    rewrite !lookup_alloc_frame; [reflexivity|lia|lia|lia].
Qed.

(** * Equality *)

Lemma vec_equals_refl (v : Vector) : vec_equals v v = negb (has_nan v).
Proof.
  unfold vec_equals, has_nan. rewrite !strict_eq_refl.
  destruct (is_nan (x v)), (is_nan (y v)), (is_nan (z v)); reflexivity.
Qed.

Lemma vec_equals_coerce (v : Vector) :
  vec_equals (coerce v) v = negb (has_nan v).
Proof.
  unfold vec_equals, has_nan, coerce, Vector_of. cbn [x y z].
  rewrite !strict_eq_or_default.
  destruct (is_nan (x v)), (is_nan (y v)), (is_nan (z v)); reflexivity.
Qed.

(** C9: [v.equals(v)] is [true] for every vector without a NaN
    component and [false] for every vector with one. *)
Theorem equals_reflexive_iff_nan_free (h : heap) (l : loc) (v : Vector) :
  h !! l = Some v ->
  (has_nan v = false -> equals l l h = Some (true, h)) /\
  (has_nan v = true -> equals l l h = Some (false, h)).
Proof.
  intros Hl. rewrite (equals_spec h l l v v Hl Hl), vec_equals_refl.
  split; intros ->; reflexivity.
Qed.

Lemma equals_reflexive_iff_nan_free_witness :
  equals 0 0 [mkVector one (of_Z 2) three]
    = Some (true, [mkVector one (of_Z 2) three])
  /\ equals 0 0 [mkVector one NaN three]
    = Some (false, [mkVector one NaN three]).
Proof.
  split.
  - apply (proj1 (equals_reflexive_iff_nan_free
                    [mkVector one (of_Z 2) three] 0 _ eq_refl)).
    reflexivity.
  - apply (proj2 (equals_reflexive_iff_nan_free
                    [mkVector one NaN three] 0 _ eq_refl)).
    reflexivity.
Defined.

(** * Additive inverse *)

Lemma additive_inverse_value (va : Vector) :
  vec_equals (coerce (zip Num.add va (coerce (vmap neg va))))
             (Vector_of (Number pzero) (Number pzero) (Number pzero))
  = true.
Proof.
  unfold vec_equals, coerce, zip, vmap, Vector_of. cbn [x y z].
  rewrite !add_negative_component. reflexivity.
Qed.

(** C8: for every vector [a], [a.add(a.negative())] equals
    [new Vector(0, 0, 0)] under [equals]; the call returns [true]. *)
Theorem add_negative_equals_zero (h : heap) (a : loc) (va : Vector) :
  h !! a = Some va ->
  value (additive_inverse a h) = Some true.
Proof.
  intros Ha. unfold additive_inverse, bind.
  rewrite (negative_spec h a va Ha).
  unfold add.
  rewrite (instance_arith_spec Num.add (h ++ [coerce (vmap neg va)]) a
             (OVector (List.length h)) va (coerce (vmap neg va)))
    by (first [apply lookup_alloc_old; assumption | apply lookup_alloc_new]).
  rewrite new_Vector_spec.
  rewrite (equals_spec _ _ _ (coerce (zip Num.add va (coerce (vmap neg va))))
             (Vector_of (Number pzero) (Number pzero) (Number pzero))).
  - rewrite additive_inverse_value. reflexivity.
  - apply lookup_alloc_old, lookup_alloc_new.
  - apply lookup_alloc_new.
Qed.

Lemma add_negative_equals_zero_witness :
  value (additive_inverse 0 [mkVector one (of_Z (-2)) Infinity]) = Some true.
Proof.
  apply (add_negative_equals_zero _ 0 (mkVector one (of_Z (-2)) Infinity)).
  reflexivity.
Defined.

Lemma add_neg_strict_eq_zero (a : number) :
  strict_eq (Num.add a (Num.neg a)) pzero = is_finite a.
Proof.
  destruct a as [s|s| |s m e]; try (destruct s; reflexivity); try reflexivity.
  unfold Num.add, Num.neg, SFadd, SFopp.
  rewrite Z.min_id, cond_Zopp_negb. reflexivity.
Qed.

(** Through the static forms nothing coerces the sum, and the property
    holds exactly for the vectors whose components are all finite. *)
Lemma add_negative_static (h : heap) (a : loc) (va : Vector) :
  h !! a = Some va ->
  value (additive_inverse_static a h) = Some (finite_vector va).
Proof.
  intros Ha. unfold additive_inverse_static, bind.
  rewrite (Vector_negative_fresh h a va Ha).
  unfold Vector_add.
  rewrite (static_arith_fresh Num.add (h ++ [vmap neg va]) a
             (OVector (List.length h)) va (vmap neg va))
    by (first [apply lookup_alloc_old; assumption | apply lookup_alloc_new]).
  rewrite new_Vector_spec.
  rewrite (equals_spec _ _ _ (zip Num.add va (vmap neg va))
             (Vector_of (Number pzero) (Number pzero) (Number pzero))).
  - unfold vec_equals, zip, vmap, Vector_of, finite_vector. cbn [x y z].
    change (or_default (Number pzero) pzero) with pzero.
    rewrite !add_neg_strict_eq_zero. reflexivity.
  - apply lookup_alloc_old, lookup_alloc_new.
  - apply lookup_alloc_new.
Qed.

(** * Linear interpolation *)

Lemma lerp_value_start (va vb : Vector) :
  valid_vector va = true -> lerp_value va vb pzero = coerce va.
Proof.
  unfold valid_vector. intros Hv.
  apply andb_true_iff in Hv as [Hv Hz].
  apply andb_true_iff in Hv as [Hx Hy].
  unfold lerp_value, coerce, zip, broadcast, Vector_of. cbn [x y z].
  rewrite !lerp_component_0 by assumption. reflexivity.
Qed.

Lemma lerp_value_end (va vb : Vector) :
  valid_vector vb = true -> lerp_value va vb one = coerce vb.
Proof.
  unfold valid_vector. intros Hv.
  apply andb_true_iff in Hv as [Hv Hz].
  apply andb_true_iff in Hv as [Hx Hy].
  unfold lerp_value, coerce, zip, broadcast, Vector_of. cbn [x y z].
  rewrite !lerp_component_1 by assumption. reflexivity.
Qed.

Lemma lerp_then_equals (h : heap) (a b c : loc) (va vb vc : Vector)
    (t : number) :
  h !! a = Some va -> h !! b = Some vb -> h !! c = Some vc ->
  value ((r <- Vector_lerp a b t ;; equals r c) h)
  = Some (vec_equals (lerp_value va vb t) vc).
Proof.
  intros Ha Hb Hc.
  destruct (Vector_lerp_spec h a b va vb t Ha Hb) as (h' & Hrun & Hr & Hold).
  unfold bind. rewrite Hrun.
  erewrite equals_spec; [reflexivity|exact Hr|].
  rewrite Hold; [exact Hc|]. eapply lookup_lt_Some; eassumption.
Qed.

(** C7, amended: [Vector.lerp(a, b, 0).equals(a)] is [true] for every
    [a] without a NaN component and every [b], and
    [Vector.lerp(a, b, 1).equals(b)] is [true] for every [b] without a
    NaN component and every [a]; with a NaN component the answer is
    [false]. [Vector.lerp(a, b, t)] is [a.multiply(1 - t).add(b.multiply(t))]
    for every [t], which is not clamped. *)
Theorem lerp_endpoints (h : heap) (a b : loc) (va vb : Vector) :
  h !! a = Some va -> h !! b = Some vb ->
  (valid_vector va = true ->
     value (lerp_start a b h) = Some (negb (has_nan va))) /\
  (valid_vector vb = true ->
     value (lerp_end a b h) = Some (negb (has_nan vb))) /\
  (forall t, exists r h',
     Vector_lerp a b t h = Some (r, h') /\
     h' !! r = Some (lerp_value va vb t)).
Proof.
  intros Ha Hb. split; [|split].
  - intros Hv. unfold lerp_start.
    rewrite (lerp_then_equals h a b a va vb va pzero Ha Hb Ha).
    rewrite lerp_value_start by exact Hv.
    rewrite vec_equals_coerce. reflexivity.
  - intros Hv. unfold lerp_end.
    rewrite (lerp_then_equals h a b b va vb vb one Ha Hb Hb).
    rewrite lerp_value_end by exact Hv.
    rewrite vec_equals_coerce. reflexivity.
  - intros t.
    destruct (Vector_lerp_spec h a b va vb t Ha Hb) as (h' & Hrun & Hr & _).
    exists (S (S (List.length h))), h'. split; assumption.
Qed.

Lemma lerp_endpoints_witness :
  value (lerp_start 0 1 [mkVector one (of_Z 2) three;
                          mkVector (of_Z 4) (of_Z 5) (of_Z 6)]) = Some true
  /\ value (lerp_end 0 1 [mkVector one (of_Z 2) three;
                           mkVector (of_Z 4) (of_Z 5) (of_Z 6)]) = Some true.
Proof.
  pose proof (lerp_endpoints
                [mkVector one (of_Z 2) three;
                 mkVector (of_Z 4) (of_Z 5) (of_Z 6)]
                0 1 _ _ eq_refl eq_refl) as (H0 & H1 & _).
  split; [apply H0 | apply H1]; reflexivity.
Defined.

(** C7 as stated fails on a vector with a NaN component: here
    [Vector.lerp(a, b, 0).equals(a)] is [false]. *)
Lemma lerp_start_nan_counterexample :
  value (lerp_start_on_nan []) = Some false.
Proof. vm_compute. reflexivity. Qed.

(** * Construction *)

Lemma or_default_is_falsy (v : jsval) :
  falsy v = true -> or_default v pzero = pzero.
Proof.
  destruct v as [|n]; [reflexivity|]. simpl.
  destruct (truthy n); [discriminate|reflexivity].
Qed.

Lemma or_default_strict_eq (v : jsval) :
  nan_argument v = false ->
  strict_eq (or_default v pzero) (or_default_undefined_only v pzero) = true.
Proof.
  destruct v as [|n]; [reflexivity|]. cbn [nan_argument].
  intros Hn. cbn [or_default_undefined_only].
  rewrite strict_eq_or_default, Hn. reflexivity.
Qed.

(** C3, amended: every omitted or falsy argument ([0], [-0], NaN) gives
    the component [0]; a truthy argument is stored as it is; and the
    constructor agrees, component by component under [===], with the one
    that defaults only [undefined], for all arguments that are not NaN. *)
Theorem constructor_defaults (ax ay az : jsval) (h : heap) :
  new_Vector ax ay az h = Some (List.length h, h ++ [Vector_of ax ay az]) /\
  (falsy ax = true -> x (Vector_of ax ay az) = pzero) /\
  (falsy ay = true -> y (Vector_of ax ay az) = pzero) /\
  (falsy az = true -> z (Vector_of ax ay az) = pzero) /\
  (forall n, truthy n = true ->
     x (Vector_of (Number n) ay az) = n /\
     y (Vector_of ax (Number n) az) = n /\
     z (Vector_of ax ay (Number n)) = n) /\
  (nan_argument ax = false -> nan_argument ay = false ->
   nan_argument az = false ->
   vec_equals (Vector_of ax ay az) (Vector_of_undefined_only ax ay az)
   = true).
Proof.
  split; [reflexivity|].
  repeat split; try (intros H; cbn [Vector_of x y z];
                     apply or_default_is_falsy; exact H).
  1-3: cbn [Vector_of x y z]; apply or_default_truthy; assumption.
  intros Hx Hy Hz. unfold vec_equals, Vector_of, Vector_of_undefined_only.
  cbn [x y z]. rewrite !or_default_strict_eq by assumption. reflexivity.
Qed.

Lemma constructor_defaults_witness :
  x (Vector_of Undefined (Number nzero) (Number three)) = pzero /\
  y (Vector_of Undefined (Number nzero) (Number three)) = pzero /\
  z (Vector_of Undefined (Number nzero) (Number three)) = three /\
  vec_equals (Vector_of Undefined (Number nzero) (Number three))
             (Vector_of_undefined_only Undefined (Number nzero) (Number three))
  = true.
Proof.
  pose proof (constructor_defaults Undefined (Number nzero) (Number three) [])
    as (_ & Hx & Hy & _ & Ht & He).
  split; [apply Hx; reflexivity|].
  split; [apply Hy; reflexivity|].
  split; [apply (Ht three); reflexivity|].
  apply He; reflexivity.
Defined.

(** C3 as stated fails on a NaN argument: it is supplied and is not
    [undefined], yet the component is [0]; the constructor that defaults
    only [undefined] would have kept NaN. *)
Lemma constructor_nan_counterexample :
  new_Vector (Number NaN) (Number one) (Number one) []
    = Some (0, [mkVector pzero one one]) /\
  x (Vector_of (Number NaN) (Number one) (Number one)) <> NaN /\
  Vector_of_undefined_only (Number NaN) (Number one) (Number one)
    = mkVector NaN one one.
Proof.
  split; [reflexivity|]. split; [discriminate|reflexivity].
Qed.

(** * toArray *)

Lemma toArray_spec (h : heap) (this : loc) (v : Vector) (n : jsval) :
  h !! this = Some v ->
  toArray this n h
  = Some (slice0 [x v; y v; z v] (or_default n three), h).
Proof.
  intros Ha. unfold toArray, bind.
  repeat (erewrite get_ok by eassumption). reflexivity.
Qed.

Lemma slice0_nonnegative (a b c : number) (n : jsval) :
  nonnegative n = true ->
  slice0 [a; b; c] (or_default n three)
  = toArray_clamped (mkVector a b c) n.
Proof.
  destruct n as [|[s|s| |s m e]]; intros Hn; try reflexivity;
    try discriminate.
  - destruct s; [discriminate|reflexivity].
  - destruct s; [discriminate|].
    unfold toArray_clamped, slice0, or_default.
    cbn [truthy to_integer_or_infinity strict_eq x y z List.length clamp03].
    change (strict_eq (S754_finite false m e) pzero) with false.
    assert (Hr : (0 <= Z.shiftl (Z.pos m) e)%Z)
      by (apply Z.shiftl_nonneg; lia).
    destruct (Z.ltb_spec (Z.shiftl (Z.pos m) e) 0) as [Hlt|_]; [lia|].
    change (Z.of_nat 3) with 3%Z.
    rewrite (Z.max_r 0 (Z.min (Z.shiftl (Z.pos m) e) 3)) by lia.
    reflexivity.
Qed.

(** C2, amended: for every vector and every [n] that is omitted or not
    negative, [toArray(n)] is the first [n] components with [n] cut down
    to at most 3 (and truncated to an integer), and a missing [n], [0]
    and [-0] give all three components. *)
Theorem toArray_first_components (h : heap) (this : loc) (v : Vector)
    (n : jsval) :
  h !! this = Some v -> nonnegative n = true ->
  toArray this n h = Some (toArray_clamped v n, h).
Proof.
  intros Ha Hn. rewrite (toArray_spec h this v n Ha).
  destruct v as [a b c]. cbn [x y z].
  rewrite slice0_nonnegative by exact Hn. reflexivity.
Qed.

Lemma toArray_first_components_witness :
  toArray 0 (Number (of_Z 2)) [mkVector one (of_Z 2) three]
  = Some ([one; of_Z 2], [mkVector one (of_Z 2) three]).
Proof.
  apply (toArray_first_components [mkVector one (of_Z 2) three] 0
           (mkVector one (of_Z 2) three) (Number (of_Z 2)));
    reflexivity.
Defined.

(** C2 as stated fails on a negative [n]: [slice] counts it from the end
    of the array, so [toArray(-1)] is the first two components, where
    clamping to [0..3] gives none. *)
Lemma toArray_negative_counterexample :
  toArray 0 (Number (of_Z (-1))) [mkVector one (of_Z 2) three]
    = Some ([one; of_Z 2], [mkVector one (of_Z 2) three]) /\
  toArray_clamped (mkVector one (of_Z 2) three) (Number (of_Z (-1))) = [].
Proof. split; reflexivity. Qed.

(** * Spherical angles *)

Section SphericalFacts.

Variables Math_cos Math_sin : number -> number.

(** A sine that maps NaN to NaN, as the host's does, makes the second
    component of [fromPhiTheta(NaN, theta)] the number [0]. *)
Lemma fromPhiTheta_nan (theta : number) (h : list Vector) :
  Math_sin NaN = NaN ->
  exists v,
    Vector_fromPhiTheta Math_cos Math_sin NaN theta h
      = Some (List.length h, h ++ [v])
    /\ y v = pzero.
Proof.
  intros Hs. eexists. split; [reflexivity|].
  cbn [Vector_of y]. rewrite Hs. reflexivity.
Qed.

(** C6, amended: [fromPhiTheta(phi, theta)] is
    [new Vector(cos phi * cos theta, sin phi, cos phi * sin theta)], so
    its components are these three numbers after the constructor's
    [|| 0], and [fromAngles(theta, phi)] of the other module returns a
    vector with exactly the same components. *)
Theorem fromPhiTheta_fromAngles (phi theta : number) (h : list Vector) :
  Vector_fromPhiTheta Math_cos Math_sin phi theta h
    = Some (List.length h,
            h ++ [coerce (mkVector
                            (Num.mul (Math_cos phi) (Math_cos theta))
                            (Math_sin phi)
                            (Num.mul (Math_cos phi) (Math_sin theta)))])
  /\ Vector_fromAngles Math_cos Math_sin theta phi h
     = Vector_fromPhiTheta Math_cos Math_sin phi theta h.
Proof.
  split; [reflexivity|].
  unfold Vector_fromAngles, Vector_fromPhiTheta.
  rewrite (mul_comm (Math_cos theta) (Math_cos phi)).
  rewrite (mul_comm (Math_sin theta) (Math_cos phi)).
  reflexivity.
Qed.

End SphericalFacts.

(** C6 as stated fails at [phi = NaN], [theta = 0]: the host's sine
    maps NaN to NaN, and whatever else the host's functions do, the
    vector returned is not the one whose components are the three
    formula values; its second component is [0], where [sin(NaN)] is
    NaN. *)
Lemma fromPhiTheta_nan_counterexample :
  ~ (forall Math_cos Math_sin : number -> number,
       Math_sin NaN = NaN ->
       Vector_fromPhiTheta Math_cos Math_sin NaN pzero []
       = Some (0, [mkVector (Num.mul (Math_cos NaN) (Math_cos pzero))
                            (Math_sin NaN)
                            (Num.mul (Math_cos NaN) (Math_sin pzero))])).
Proof.
  intros H.
  destruct (fromPhiTheta_nan (fun n => n) (fun n => n) pzero [] eq_refl)
    as (v & Hrun & Hy).
  rewrite (H (fun n => n) (fun n => n) eq_refl) in Hrun.
  injection Hrun as <-. discriminate Hy.
Qed.

(** * The output object of the static forms *)

(** C10: for [add], [subtract], [multiply] and [divide],
    [Vector.op(a, b, out)] with [out] the very object [a], or the very
    object [b], leaves in it the component-wise result of the values
    that [a] and [b] had before the call; likewise with a scalar [b]. *)
Theorem static_arith_alias_safe (h : heap) (a b : loc) (va vb : Vector)
    (n : number) :
  h !! a = Some va -> h !! b = Some vb ->
  Forall (fun '(op, Vector_op, _) =>
            Vector_op a (OVector b) (Some a) h
              = Some (a, <[a := zip op va vb]> h)
            /\ Vector_op a (OVector b) (Some b) h
              = Some (b, <[b := zip op va vb]> h)
            /\ Vector_op a (OScalar n) (Some a) h
              = Some (a, <[a := zip op va (broadcast n)]> h))
         arithmetic_forms.
Proof.
  intros Ha Hb. unfold arithmetic_forms.
  repeat (apply Forall_cons_2); try apply Forall_nil_2;
    (split; [|split]);
    first [ apply (static_arith_spec _ h a a (OVector b) va vb va Ha Hb Ha)
          | apply (static_arith_spec _ h a b (OVector b) va vb vb Ha Hb Hb)
          | apply (static_arith_spec _ h a a (OScalar n) va (broadcast n) va
                     Ha eq_refl Ha) ].
Qed.

Lemma static_arith_alias_safe_witness :
  Vector_add 0 (OVector 1) (Some 0)
    [mkVector one (of_Z 2) three; mkVector (of_Z 4) (of_Z 5) (of_Z 6)]
  = Some (0, [mkVector (of_Z 5) (of_Z 7) (of_Z 9);
              mkVector (of_Z 4) (of_Z 5) (of_Z 6)])
  /\ Vector_divide 0 (OVector 1) (Some 1)
       [mkVector (of_Z 8) (of_Z 9) (of_Z 10); mkVector (of_Z 4) three (of_Z 5)]
     = Some (1, [mkVector (of_Z 8) (of_Z 9) (of_Z 10);
                 mkVector (of_Z 2) three (of_Z 2)]).
Proof.
  split.
  - pose proof (static_arith_alias_safe
                  [mkVector one (of_Z 2) three;
                   mkVector (of_Z 4) (of_Z 5) (of_Z 6)]
                  0 1 _ _ pzero eq_refl eq_refl) as H.
    apply Forall_cons_1 in H as [[H _] _]. exact H.
  - pose proof (static_arith_alias_safe
                  [mkVector (of_Z 8) (of_Z 9) (of_Z 10);
                   mkVector (of_Z 4) three (of_Z 5)]
                  0 1 _ _ pzero eq_refl eq_refl) as H.
    apply Forall_cons_1 in H as [_ H].
    apply Forall_cons_1 in H as [_ H].
    apply Forall_cons_1 in H as [_ H].
    apply Forall_cons_1 in H as [[_ [H _]] _]. exact H.
Defined.

(** [Vector.cross] is not like that: with [out] the object [a], the
    second component is computed from the first one just written. For
    [a = (1, 2, 3)] and [b = (4, 5, 6)] the cross product is
    [(-3, 6, -3)]; into [a] itself the call puts [(-3, 30, -135)]. *)
Example Vector_cross_aliased :
  Vector_cross 0 1 None
    [mkVector one (of_Z 2) three; mkVector (of_Z 4) (of_Z 5) (of_Z 6)]
  = Some (2, [mkVector one (of_Z 2) three;
              mkVector (of_Z 4) (of_Z 5) (of_Z 6);
              mkVector (of_Z (-3)) (of_Z 6) (of_Z (-3))])
  /\ Vector_cross 0 1 (Some 0)
       [mkVector one (of_Z 2) three; mkVector (of_Z 4) (of_Z 5) (of_Z 6)]
     = Some (0, [mkVector (of_Z (-3)) (of_Z 30) (of_Z (-135));
                 mkVector (of_Z 4) (of_Z 5) (of_Z 6)]).
Proof. split; vm_compute; reflexivity. Qed.

(** * Which objects a call changes *)

Lemma operand_ok_value (h : heap) (b : operand) :
  operand_ok h b -> exists vb, operand_value h b = Some vb.
Proof.
  destruct b as [l|n]; cbn [operand_ok operand_value].
  - intros [vb Hb]. exists vb. exact Hb.
  - intros _. eexists. reflexivity.
Qed.



Section Frame.

Variables Math_asin Math_acos : number -> number.
Variable Math_atan2 : number -> number -> number.



End Frame.



(** * Static and instance forms side by side *)

(** On the same operands the instance form returns what the static form
    returns, passed through the constructor: a component that the static
    form computes as NaN or [-0] is [0] in the instance form's result. *)
Lemma instance_coerces_static (h : heap) (a : loc) (b : operand)
    (va vb : Vector) :
  h !! a = Some va -> operand_value h b = Some vb ->
  Forall (fun '(op, Vector_op, instance_op) =>
            Vector_op a b None h
              = Some (List.length h, h ++ [zip op va vb])
            /\ instance_op a b h
              = Some (List.length h, h ++ [coerce (zip op va vb)]))
         arithmetic_forms.
Proof.
  intros Ha Hb. unfold arithmetic_forms.
  repeat (apply Forall_cons_2); try apply Forall_nil_2;
    (split; [ apply (static_arith_fresh _ h a b va vb Ha Hb)
            | apply (instance_arith_spec _ h a b va vb Ha Hb) ]).
Qed.

(** C1, at the input where the two forms part: for [a = (0, 0, 0)] and
    [b = (0, 0, 0)], [Vector.divide(a, b)] returns a fresh vector
    [(NaN, NaN, NaN)] and [a.divide(b)] returns a fresh vector
    [(0, 0, 0)]; the same with the scalar [0] for [b]. *)
Theorem divide_static_instance_differ :
  Vector_divide 0 (OVector 1) None [zero_vector; zero_vector]
    = Some (2, [zero_vector; zero_vector; nan_vector])
  /\ divide 0 (OVector 1) [zero_vector; zero_vector]
    = Some (2, [zero_vector; zero_vector; zero_vector])
  /\ Vector_divide 0 (OScalar pzero) None [zero_vector]
    = Some (1, [zero_vector; nan_vector])
  /\ divide 0 (OScalar pzero) [zero_vector]
    = Some (1, [zero_vector; zero_vector]).
Proof. repeat split; vm_compute; reflexivity. Qed.

(** C5, at the zero vector: [Vector.unit(a)] returns a fresh vector
    [(NaN, NaN, NaN)], and so does [Vector.unit(a, out)] write into
    [out], while [a.unit()] returns a fresh vector [(0, 0, 0)]; none of
    the calls fails. *)
Theorem unit_of_zero_vector :
  Vector_unit 0 None [zero_vector] = Some (1, [zero_vector; nan_vector])
  /\ Vector_unit 0 (Some 1) [zero_vector; mkVector one one one]
    = Some (1, [zero_vector; nan_vector])
  /\ unit 0 [zero_vector] = Some (1, [zero_vector; zero_vector]).
Proof. repeat split; vm_compute; reflexivity. Qed.

(** * The repository's tests *)

(** The four assertions on the instance methods, then the four on the
    static methods. *)
Example test_instance_methods :
  value (expect (add 0 (OScalar one)) 2 3 4 test_heap) = Some true
  /\ value (expect (add 0 (OVector 1)) 5 7 9 test_heap) = Some true
  /\ value (expect (subtract 0 (OScalar one)) 0 1 2 test_heap) = Some true
  /\ value (expect (subtract 0 (OVector 1)) (-3) (-3) (-3) test_heap)
     = Some true.
Proof. repeat split; vm_compute; reflexivity. Qed.

Example test_static_methods :
  value (expect (Vector_add 0 (OScalar one) None) 2 3 4 test_heap)
    = Some true
  /\ value (expect (Vector_add 0 (OVector 1) None) 5 7 9 test_heap)
    = Some true
  /\ value (expect (Vector_subtract 0 (OScalar one) None) 0 1 2 test_heap)
    = Some true
  /\ value (expect (Vector_subtract 0 (OVector 1) None) (-3) (-3) (-3)
              test_heap)
    = Some true.
Proof. repeat split; vm_compute; reflexivity. Qed.

(** The concrete scenarios of the specification: [v1.dot(v2) == 32],
    [v1.cross(v2)] is [(-3, 6, -3)], [v1.length()] is the binary64
    nearest to the square root of 14. *)
Example test_scenarios :
  dot 0 1 test_heap = Some (of_Z 32, test_heap)
  /\ value (expect (cross 0 1) (-3) 6 (-3) test_heap) = Some true
  /\ length 0 test_heap
     = Some (S754_finite false 8425463406411593 (-51), test_heap).
Proof. repeat split; vm_compute; reflexivity. Qed.

(** * Further facts about numbers *)

Lemma add_comm (a b : number) : Num.add a b = Num.add b a.
Proof.
  destruct a as [sa|sa| |sa ma ea], b as [sb|sb| |sb mb eb];
    try reflexivity; try (destruct sa, sb; reflexivity).
  unfold Num.add, SFadd.
  rewrite (Z.min_comm eb ea), Z.add_comm. reflexivity.
Qed.

Lemma neg_involutive (a : number) : Num.neg (Num.neg a) = a.
Proof. destruct a as [s|s| |s m e]; simpl; rewrite ?negb_involutive; reflexivity. Qed.

Lemma truthy_neg (a : number) : truthy (Num.neg a) = truthy a.
Proof. destruct a; reflexivity. Qed.

Lemma binary_round_aux_opp (s : bool) (m e : Z) (l : location) :
  SFopp (binary_round_aux prec emax s m e l)
  = binary_round_aux prec emax (negb s) m e l.
Proof.
  unfold binary_round_aux.
  destruct (shr_fexp prec emax m e l) as [mrs' e'].
  destruct (shr_fexp prec emax _ e' loc_Exact) as [mrs'' e''].
  destruct (shr_m mrs''); try reflexivity.
  destruct (Z.leb e'' _); reflexivity.
Qed.

Lemma binary_normalize_opp (d e : Z) :
  d <> 0%Z ->
  binary_normalize prec emax (- d) e false
  = SFopp (binary_normalize prec emax d e false).
Proof.
  intros Hd. destruct d as [|p|p]; [congruence| |].
  - change (- Z.pos p)%Z with (Z.neg p).
    unfold binary_normalize, binary_round.
    destruct (shl_align _ _ _) as [mz ez].
    rewrite binary_round_aux_opp. reflexivity.
  - change (- Z.neg p)%Z with (Z.pos p).
    unfold binary_normalize, binary_round.
    destruct (shl_align _ _ _) as [mz ez].
    rewrite binary_round_aux_opp. reflexivity.
Qed.

Lemma sub_swap (p q : number) :
  Num.sub q p = Num.neg (Num.sub p q)
  \/ (truthy (Num.sub p q) = false /\ truthy (Num.sub q p) = false).
Proof.
  destruct p as [sp|sp| |sp mp ep], q as [sq|sq| |sq mq eq_];
    try (right; split; reflexivity);
    try (left; simpl; rewrite ?negb_involutive; reflexivity);
    try (destruct sp, sq; (left; reflexivity) || (right; split; reflexivity)).
  unfold Num.sub, Num.neg, SFsub.
  rewrite (Z.min_comm eq_ ep).
  set (ez := Z.min ep eq_).
  set (cp := cond_Zopp sp (Z.pos (fst (shl_align mp ep ez)))).
  set (cq := cond_Zopp sq (Z.pos (fst (shl_align mq eq_ ez)))).
  destruct (Z.eq_dec (cp - cq)%Z 0%Z) as [Hz|Hnz].
  - right. replace (cq - cp)%Z with 0%Z by lia. rewrite Hz. split; reflexivity.
  - left. replace (cq - cp)%Z with (- (cp - cq))%Z by lia.
    apply binary_normalize_opp. exact Hnz.
Qed.

Lemma sub_swap_coerced (p q : number) :
  or_default (Number (Num.neg (or_default (Number (Num.sub q p)) pzero))) pzero
  = or_default (Number (Num.sub p q)) pzero.
Proof.
  destruct (sub_swap p q) as [E|[Hp Hq]].
  - rewrite E. destruct (truthy (Num.sub p q)) eqn:Ht.
    + rewrite (or_default_truthy (Num.neg (Num.sub p q)))
        by (rewrite truthy_neg; exact Ht).
      rewrite neg_involutive. reflexivity.
    + rewrite (or_default_falsy (Num.neg (Num.sub p q)))
        by (rewrite truthy_neg; exact Ht).
      rewrite (or_default_falsy (Num.sub p q)) by exact Ht. reflexivity.
  - rewrite (or_default_falsy (Num.sub q p)) by exact Hq.
    rewrite (or_default_falsy (Num.sub p q)) by exact Hp. reflexivity.
Qed.

Lemma sub_self_falsy (a : number) : truthy (Num.sub a a) = false.
Proof.
  destruct a as [s|s| |s m e]; try (destruct s; reflexivity); try reflexivity.
  unfold Num.sub, SFsub. rewrite Z.sub_diag. reflexivity.
Qed.



Lemma binary_round_aux_nonneg (m e : Z) (l : location) :
  nonneg_or_nan (binary_round_aux prec emax false m e l) = true.
Proof.
  unfold binary_round_aux.
  destruct (shr_fexp prec emax m e l) as [mrs' e'].
  destruct (shr_fexp prec emax _ e' loc_Exact) as [mrs'' e''].
  destruct (shr_m mrs''); try reflexivity.
  destruct (Z.leb e'' _); reflexivity.
Qed.

Lemma mul_self_nonneg (a : number) : nonneg_or_nan (Num.mul a a) = true.
Proof.
  destruct a as [s|s| |s m e]; try (destruct s; reflexivity); try reflexivity.
  unfold Num.mul, SFmul. rewrite xorb_nilpotent.
  apply binary_round_aux_nonneg.
Qed.

Lemma add_nonneg (a b : number) :
  nonneg_or_nan a = true -> nonneg_or_nan b = true ->
  nonneg_or_nan (Num.add a b) = true.
Proof.
  destruct a as [sa|sa| |sa ma ea], b as [sb|sb| |sb mb eb];
    cbn [nonneg_or_nan]; intros Ha Hb;
    try reflexivity;
    try (destruct sa; try discriminate Ha);
    try (destruct sb; try discriminate Hb); try reflexivity.
  unfold Num.add, SFadd. cbn [cond_Zopp].
  set (p1 := fst (shl_align ma ea (Z.min ea eb))).
  set (p2 := fst (shl_align mb eb (Z.min ea eb))).
  change (Z.pos p1 + Z.pos p2)%Z with (Z.pos (p1 + p2)).
  unfold binary_normalize, binary_round.
  destruct (shl_align (p1 + p2) _ _) as [mz ez].
  apply binary_round_aux_nonneg.
Qed.

Lemma sqrt_nonneg (a : number) :
  nonneg_or_nan a = true -> nonneg_or_nan (Num.sqrt a) = true.
Proof.
  destruct a as [s|s| |s m e]; cbn [nonneg_or_nan]; intros Ha;
    try reflexivity; destruct s; try discriminate Ha; try reflexivity.
  unfold Num.sqrt, SFsqrt.
  destruct (SFsqrt_core_binary prec emax (Z.pos m) e) as [[mz ez] lz].
  apply binary_round_aux_nonneg.
Qed.

Lemma clean_or_default (v : jsval) : clean (or_default v pzero) = true.
Proof.
  destruct v as [|[s|s| |s m e]]; reflexivity.
Qed.

(** * Commutative operations *)

Lemma zip_comm op (va vb : Vector) :
  (forall p q, op p q = op q p) -> zip op va vb = zip op vb va.
Proof.
  intros Hc. unfold zip.
  rewrite (Hc (x va)), (Hc (y va)), (Hc (z va)). reflexivity.
Qed.

(** X1: [add] and [multiply] of two vectors give the same vector in
    either operand order, in the instance and in the static form. *)
Theorem add_multiply_commute (h : heap) (a b : loc) (va vb : Vector) :
  h !! a = Some va -> h !! b = Some vb ->
  add a (OVector b) h = add b (OVector a) h
  /\ multiply a (OVector b) h = multiply b (OVector a) h
  /\ Vector_add a (OVector b) None h = Vector_add b (OVector a) None h
  /\ Vector_multiply a (OVector b) None h
     = Vector_multiply b (OVector a) None h.
Proof.
  intros Ha Hb. unfold add, multiply, Vector_add, Vector_multiply.
  rewrite (instance_arith_spec Num.add h a (OVector b) va vb Ha Hb).
  rewrite (instance_arith_spec Num.add h b (OVector a) vb va Hb Ha).
  rewrite (instance_arith_spec Num.mul h a (OVector b) va vb Ha Hb).
  rewrite (instance_arith_spec Num.mul h b (OVector a) vb va Hb Ha).
  rewrite (static_arith_fresh Num.add h a (OVector b) va vb Ha Hb).
  rewrite (static_arith_fresh Num.add h b (OVector a) vb va Hb Ha).
  rewrite (static_arith_fresh Num.mul h a (OVector b) va vb Ha Hb).
  rewrite (static_arith_fresh Num.mul h b (OVector a) vb va Hb Ha).
  rewrite (zip_comm Num.add va vb add_comm).
  rewrite (zip_comm Num.mul va vb mul_comm).
  repeat split; reflexivity.
Qed.

Lemma add_multiply_commute_witness :
  add 0 (OVector 1) test_heap = add 1 (OVector 0) test_heap
  /\ Vector_multiply 0 (OVector 1) None test_heap
     = Vector_multiply 1 (OVector 0) None test_heap.
Proof.
  pose proof (add_multiply_commute test_heap 0 1 _ _ eq_refl eq_refl)
    as (H1 & _ & _ & H4).
  split; [exact H1 | exact H4].
Defined.

Lemma vec_dot_comm (va vb : Vector) : vec_dot va vb = vec_dot vb va.
Proof.
  unfold vec_dot.
  rewrite (mul_comm (x va)), (mul_comm (y va)), (mul_comm (z va)).
  reflexivity.
Qed.

Lemma angleTo_spec (Math_acos : number -> number) (h : heap) (a b : loc)
    (va vb : Vector) :
  h !! a = Some va -> h !! b = Some vb ->
  angleTo Math_acos a b h
  = Some (Math_acos (Num.div (vec_dot va vb)
                       (Num.mul (vec_length va) (vec_length vb))), h).
Proof.
  intros Ha Hb. unfold angleTo, bind.
  rewrite (dot_spec h a b va vb Ha Hb).
  rewrite (length_spec h a va Ha), (length_spec h b vb Hb). reflexivity.
Qed.

(** X2: [dot] and [angleTo] do not depend on the order of the two
    vectors, whatever the host's [Math.acos] is; the sibling module's
    static [angleTo] and [angleBetween] compute the same number. *)
Theorem dot_angleTo_symmetric (Math_acos : number -> number) (h : heap)
    (a b : loc) (va vb : Vector) :
  h !! a = Some va -> h !! b = Some vb ->
  dot a b h = dot b a h
  /\ angleTo Math_acos a b h = angleTo Math_acos b a h
  /\ Vector_angleTo Math_acos a b h = angleTo Math_acos b a h
  /\ Vector_angleBetween Math_acos a b h = angleTo Math_acos b a h.
Proof.
  intros Ha Hb.
  assert (Hsym : angleTo Math_acos a b h = angleTo Math_acos b a h).
  { rewrite (angleTo_spec Math_acos h a b va vb Ha Hb).
    rewrite (angleTo_spec Math_acos h b a vb va Hb Ha).
    rewrite (vec_dot_comm va vb).
    rewrite (mul_comm (vec_length va) (vec_length vb)). reflexivity. }
  split; [|split; [exact Hsym|split; exact Hsym]].
  rewrite (dot_spec h a b va vb Ha Hb), (dot_spec h b a vb va Hb Ha).
  rewrite vec_dot_comm. reflexivity.
Qed.

Lemma dot_angleTo_symmetric_witness :
  dot 0 1 test_heap = dot 1 0 test_heap
  /\ angleTo (fun n => n) 0 1 test_heap = angleTo (fun n => n) 1 0 test_heap.
Proof.
  pose proof (dot_angleTo_symmetric (fun n => n) test_heap 0 1 _ _
                eq_refl eq_refl) as (H1 & H2 & _).
  split; [exact H1 | exact H2].
Defined.

(** * Cross product *)

Lemma cross_value (h : heap) (this v : loc) (va vb : Vector) :
  h !! this = Some va -> h !! v = Some vb ->
  cross this v h = Some (List.length h, h ++ [coerce (vec_cross va vb)]).
Proof.
  intros Ha Hb. unfold cross, bind.
  repeat (erewrite get_ok by eassumption). reflexivity.
Qed.

Lemma strict_eq_coerced_refl (v : jsval) :
  strict_eq (or_default v pzero) (or_default v pzero) = true.
Proof.
  rewrite strict_eq_refl.
  destruct v as [|[s|s| |s m e]]; reflexivity.
Qed.

Lemma cross_anticommutes_value (va vb : Vector) :
  vec_equals (coerce (vec_cross va vb))
             (coerce (vmap neg (coerce (vec_cross vb va)))) = true.
Proof.
  unfold vec_equals, coerce, vec_cross, vmap, Vector_of. cbn [x y z].
  rewrite (mul_comm (y vb) (z va)), (mul_comm (z vb) (y va)).
  rewrite (mul_comm (z vb) (x va)), (mul_comm (x vb) (z va)).
  rewrite (mul_comm (x vb) (y va)), (mul_comm (y vb) (x va)).
  rewrite !sub_swap_coerced, !strict_eq_coerced_refl. reflexivity.
Qed.

(** X3: for all vectors [a] and [b],
    [a.cross(b).equals(b.cross(a).negative())] is [true]. *)
Theorem cross_anticommutative (h : heap) (a b : loc) (va vb : Vector) :
  h !! a = Some va -> h !! b = Some vb ->
  value (cross_anticommutes a b h) = Some true.
Proof.
  intros Ha Hb. unfold cross_anticommutes, bind.
  rewrite (cross_value h a b va vb Ha Hb).
  rewrite (cross_value (h ++ [coerce (vec_cross va vb)]) b a vb va)
    by (apply lookup_alloc_old; assumption).
  rewrite (negative_spec _ _ (coerce (vec_cross vb va)))
    by apply lookup_alloc_new.
  rewrite (equals_spec _ _ _ (coerce (vec_cross va vb))
             (coerce (vmap neg (coerce (vec_cross vb va))))).
  - rewrite cross_anticommutes_value. reflexivity.
  - apply lookup_alloc_old, lookup_alloc_old, lookup_alloc_new.
  - rewrite length_app. cbn [List.length].
    replace (List.length (h ++ [coerce (vec_cross va vb)]) + 1)
      with (List.length ((h ++ [coerce (vec_cross va vb)])
                           ++ [coerce (vec_cross vb va)]))
      by (rewrite (length_app _ [coerce (vec_cross vb va)]); reflexivity).
    apply lookup_alloc_new.
Qed.

Lemma cross_anticommutative_witness :
  value (cross_anticommutes 0 1 test_heap) = Some true.
Proof.
  apply (cross_anticommutative test_heap 0 1 _ _ eq_refl eq_refl).
Defined.

(** * Subtraction, negation and neutral elements *)

Lemma subtract_self_value (va : Vector) :
  vec_equals (coerce (zip Num.sub va va))
             (Vector_of (Number pzero) (Number pzero) (Number pzero)) = true.
Proof.
  unfold vec_equals, coerce, zip, Vector_of. cbn [x y z].
  rewrite !(or_default_falsy (Num.sub _ _)) by apply sub_self_falsy.
  reflexivity.
Qed.

(** X4: for every vector [a], also one with infinite or NaN components,
    [a.subtract(a).equals(new Vector(0, 0, 0))] is [true]. *)
Theorem subtract_self_is_zero (h : heap) (a : loc) (va : Vector) :
  h !! a = Some va ->
  value (subtract_self a h) = Some true.
Proof.
  intros Ha. unfold subtract_self, subtract, bind.
  rewrite (instance_arith_spec Num.sub h a (OVector a) va va Ha Ha).
  rewrite new_Vector_spec.
  rewrite (equals_spec _ _ _ (coerce (zip Num.sub va va))
             (Vector_of (Number pzero) (Number pzero) (Number pzero))).
  - rewrite subtract_self_value. reflexivity.
  - apply lookup_alloc_old, lookup_alloc_new.
  - apply lookup_alloc_new.
Qed.

Lemma subtract_self_is_zero_witness :
  value (subtract_self 0 [mkVector Infinity NaN (of_Z 7)]) = Some true.
Proof.
  apply (subtract_self_is_zero [mkVector Infinity NaN (of_Z 7)] 0 _ eq_refl).
Defined.

Lemma neg_twice_coerced (n : number) :
  or_default (Number (Num.neg (or_default (Number (Num.neg n)) pzero))) pzero
  = or_default (Number n) pzero.
Proof.
  destruct n as [s|s| |s m e]; try reflexivity;
    cbn; rewrite negb_involutive; reflexivity.
Qed.

Lemma equals_coerced (h : heap) (a r : loc) (va u : Vector) :
  h !! a = Some va -> h !! r = Some u -> u = coerce va ->
  equals r a h = Some (negb (has_nan va), h).
Proof.
  intros Ha Hr ->.
  rewrite (equals_spec h r a (coerce va) va Hr Ha), vec_equals_coerce.
  reflexivity.
Qed.

(** X5: [a.negative().negative().equals(a)] is [true] exactly for the
    vectors without a NaN component. *)
Theorem negative_involutive (h : heap) (a : loc) (va : Vector) :
  h !! a = Some va ->
  value (negative_twice a h) = Some (negb (has_nan va)).
Proof.
  intros Ha. unfold negative_twice, bind.
  rewrite (negative_spec h a va Ha).
  rewrite (negative_spec _ _ (coerce (vmap neg va)))
    by apply lookup_alloc_new.
  erewrite equals_coerced; [reflexivity| | |].
  - apply lookup_alloc_old, lookup_alloc_old. exact Ha.
  - rewrite length_app. cbn [List.length].
    replace (List.length h + 1)
      with (List.length (h ++ [coerce (vmap neg va)]))
      by (rewrite length_app; reflexivity).
    apply lookup_alloc_new.
  - unfold coerce, vmap, Vector_of. cbn [x y z].
    rewrite !neg_twice_coerced. reflexivity.
Qed.

Lemma negative_involutive_witness :
  value (negative_twice 0 test_heap) = Some true.
Proof. apply (negative_involutive test_heap 0 _ eq_refl). Defined.

Lemma add_zero_coerced (n : number) :
  or_default (Number (Num.add n pzero)) pzero = or_default (Number n) pzero.
Proof. destruct n as [s|s| |s m e]; try reflexivity; destruct s; reflexivity. Qed.

(** X6: [a.add(0).equals(a)] is [true] exactly for the vectors without a
    NaN component, and so is [a.multiply(1).equals(a)]. *)
Theorem neutral_scalars (h : heap) (a : loc) (va : Vector) :
  h !! a = Some va ->
  value (add_zero a h) = Some (negb (has_nan va))
  /\ (valid_vector va = true ->
      value (multiply_by_one a h) = Some (negb (has_nan va))).
Proof.
  intros Ha. split.
  - unfold add_zero, add, bind.
    rewrite (instance_arith_spec Num.add h a (OScalar pzero) va
               (broadcast pzero) Ha eq_refl).
    erewrite equals_coerced; [reflexivity| | |].
    + apply lookup_alloc_old. exact Ha.
    + apply lookup_alloc_new.
    + unfold coerce, zip, broadcast, Vector_of. cbn [x y z].
      rewrite !add_zero_coerced. reflexivity.
  - intros Hv. unfold valid_vector in Hv.
    apply andb_true_iff in Hv as [Hv Hz].
    apply andb_true_iff in Hv as [Hx Hy].
    unfold multiply_by_one, multiply, bind.
    rewrite (instance_arith_spec Num.mul h a (OScalar one) va
               (broadcast one) Ha eq_refl).
    erewrite equals_coerced; [reflexivity| | |].
    + apply lookup_alloc_old. exact Ha.
    + apply lookup_alloc_new.
    + unfold coerce, zip, broadcast, Vector_of. cbn [x y z].
      rewrite !mul_one_r by assumption. reflexivity.
Qed.

Lemma neutral_scalars_witness :
  value (add_zero 0 test_heap) = Some true
  /\ value (multiply_by_one 0 test_heap) = Some true.
Proof.
  pose proof (neutral_scalars test_heap 0 _ eq_refl) as [H1 H2].
  split; [exact H1 | apply H2; reflexivity].
Defined.

(** * Arrays and plain objects *)

(** X7: [Vector.fromArray(v.toArray()).equals(v)] and
    [Vector.fromArray(v.toArray(3)).equals(v)] are [true] exactly for the
    vectors without a NaN component. *)
Theorem toArray_fromArray_round_trip (h : heap) (v : loc) (va : Vector) :
  h !! v = Some va ->
  value (array_round_trip v Undefined h) = Some (negb (has_nan va))
  /\ value (array_round_trip v (Number three) h) = Some (negb (has_nan va)).
Proof.
  intros Ha. unfold array_round_trip, bind.
  rewrite !(toArray_spec h v va _ Ha).
  change (slice0 [x va; y va; z va] (or_default Undefined three))
    with [x va; y va; z va].
  change (slice0 [x va; y va; z va] (or_default (Number three) three))
    with [x va; y va; z va].
  change (Vector_fromArray [x va; y va; z va] h)
    with (Some (List.length h, h ++ [coerce va])).
  cbv beta iota.
  erewrite equals_coerced; [split; reflexivity| | |reflexivity].
  - apply lookup_alloc_old. exact Ha.
  - apply lookup_alloc_new.
Qed.

Lemma toArray_fromArray_round_trip_witness :
  value (array_round_trip 0 Undefined test_heap) = Some true.
Proof.
  apply (proj1 (toArray_fromArray_round_trip test_heap 0 _ eq_refl)).
Defined.

(** X8: [Vector.fromArray] reads the indices 0, 1 and 2 only: elements
    past the third are ignored, and a missing element counts as [0], so
    appending a [0] to an array never changes the vector built; the call
    never fails. *)
Theorem fromArray_three_indices (l : list number) (h : heap) :
  Vector_fromArray l h = Vector_fromArray (firstn 3 l) h
  /\ Vector_fromArray l h = Vector_fromArray (l ++ [pzero]) h
  /\ exists w, Vector_fromArray l h = Some (List.length h, h ++ [w]).
Proof.
  split; [|split].
  - destruct l as [|a [|b [|c l]]]; reflexivity.
  - destruct l as [|a [|b [|c l]]]; reflexivity.
  - eexists. reflexivity.
Qed.

Lemma or_default_nullish (v : jsval) :
  or_default (nullish_default v pzero) pzero = or_default v pzero.
Proof. destruct v; reflexivity. Qed.

(** X9: the two modules' [fromVector] build the same vector from every
    object: each field goes through [|| 0], a missing field gives [0]. *)
Theorem fromVector_variants_agree (v : fields) (h : heap) :
  Vector_fromVector v h
    = Some (List.length h, h ++ [Vector_of (fx v) (fy v) (fz v)])
  /\ Vector_fromVector_sibling v h = Vector_fromVector v h.
Proof.
  unfold Vector_fromVector, Vector_fromVector_sibling, new_Vector, Vector_of.
  rewrite or_default_nullish, !or_default_idem. split; reflexivity.
Qed.

(** * What the constructor guarantees *)

Lemma clean_Vector_of (ax ay az : jsval) :
  clean_vector (Vector_of ax ay az) = true.
Proof.
  unfold clean_vector, Vector_of. cbn [x y z].
  rewrite !clean_or_default. reflexivity.
Qed.

Lemma clean_not_nan (v : Vector) :
  clean_vector v = true -> has_nan v = false.
Proof.
  unfold clean_vector, has_nan.
  destruct (x v) as [[]| | |], (y v) as [[]| | |], (z v) as [[]| | |];
    cbn; congruence.
Qed.

Section Fresh.

Variables Math_asin Math_acos : number -> number.
Variable Math_atan2 : number -> number -> number.

Lemma call_new_value (h : heap) (m : method) (this : loc) :
  is_Some (h !! this) -> args_ok h m -> returns_new_vector m = true ->
  exists u,
    call Math_asin Math_acos Math_atan2 m this h
    = Some (r_vector (List.length h), h ++ [coerce u]).
Proof.
  intros [va Ha] Hm Hr.
  destruct m; try discriminate Hr;
    cbn [args_ok] in Hm; cbn [call]; unfold fmap_M, bind.
  - rewrite (negative_spec h this va Ha). eauto.
  - destruct (operand_ok_value h v Hm) as [vb Hb]. unfold add.
    rewrite (instance_arith_spec _ h this v va vb Ha Hb). eauto.
  - destruct (operand_ok_value h v Hm) as [vb Hb]. unfold subtract.
    rewrite (instance_arith_spec _ h this v va vb Ha Hb). eauto.
  - destruct (operand_ok_value h v Hm) as [vb Hb]. unfold multiply.
    rewrite (instance_arith_spec _ h this v va vb Ha Hb). eauto.
  - destruct (operand_ok_value h v Hm) as [vb Hb]. unfold divide.
    rewrite (instance_arith_spec _ h this v va vb Ha Hb). eauto.
  - destruct Hm as [vb Hb].
    rewrite (cross_value h this v va vb Ha Hb). eauto.
  - rewrite (unit_spec h this va Ha). eauto.
  - rewrite (clone_spec h this va Ha). eauto.
Qed.

(** X10: the vector that an instance method returns ([negative], [add],
    [subtract], [multiply], [divide], [cross], [unit], [clone]) is newly
    allocated and never has a NaN or a [-0] component, whatever the
    operands hold. *)
Theorem instance_results_clean (h : heap) (m : method) (this : loc) :
  is_Some (h !! this) -> args_ok h m -> returns_new_vector m = true ->
  exists w h',
    call Math_asin Math_acos Math_atan2 m this h
      = Some (r_vector (List.length h), h')
    /\ h' !! List.length h = Some w
    /\ clean_vector w = true /\ has_nan w = false.
Proof.
  intros Hthis Hm Hr.
  destruct (call_new_value h m this Hthis Hm Hr) as [u Hu].
  exists (coerce u), (h ++ [coerce u]).
  split; [exact Hu|]. split; [apply lookup_alloc_new|].
  split; [apply clean_Vector_of|].
  apply clean_not_nan, clean_Vector_of.
Qed.

End Fresh.

Lemma instance_results_clean_witness :
  exists w h',
    call (fun n => n) (fun n => n) (fun n _ => n) (m_divide (OScalar pzero)) 0
      [zero_vector]
      = Some (r_vector 1, h')
    /\ h' !! 1 = Some w
    /\ clean_vector w = true /\ has_nan w = false.
Proof.
  apply (instance_results_clean (fun n => n) (fun n => n) (fun n _ => n)
           [zero_vector] (m_divide (OScalar pzero)) 0).
  - eexists. reflexivity.
  - exact I.
  - reflexivity.
Defined.

(** * Equality, again *)





(** * Length *)

Lemma vec_length_nonneg (va : Vector) :
  nonneg_or_nan (vec_length va) = true.
Proof.
  unfold vec_length, vec_dot.
  apply sqrt_nonneg, add_nonneg; [apply add_nonneg|]; apply mul_self_nonneg.
Qed.

(** X12: [length()] (and [magnitude()]) of any vector is NaN or a number
    with a clear sign bit: never a negative number, never [-0]. *)
Theorem length_never_negative (h : heap) (a : loc) (va : Vector) :
  h !! a = Some va ->
  exists n,
    length a h = Some (n, h) /\ magnitude a h = Some (n, h)
    /\ nonneg_or_nan n = true.
Proof.
  intros Ha. exists (vec_length va).
  unfold magnitude. rewrite (length_spec h a va Ha).
  split; [reflexivity|]. split; [reflexivity|]. apply vec_length_nonneg.
Qed.

Lemma length_never_negative_witness :
  exists n,
    length 0 [mkVector (of_Z (-3)) nzero (of_Z (-4))]
      = Some (n, [mkVector (of_Z (-3)) nzero (of_Z (-4))])
    /\ magnitude 0 [mkVector (of_Z (-3)) nzero (of_Z (-4))]
      = Some (n, [mkVector (of_Z (-3)) nzero (of_Z (-4))])
    /\ nonneg_or_nan n = true.
Proof.
  apply (length_never_negative [mkVector (of_Z (-3)) nzero (of_Z (-4))] 0 _
           eq_refl).
Defined.

(** * Static forms writing into an operand *)

Lemma vmap_neg_twice (va : Vector) : vmap neg (vmap neg va) = va.
Proof.
  destruct va as [a b c]. unfold vmap. cbn [x y z].
  rewrite !neg_involutive. reflexivity.
Qed.

(** X13: [Vector.unit(a, a)] normalizes in place: the length is taken
    once, before the first field is written, so every component is
    divided by the length of the original vector. And
    [Vector.negative(a, a)] twice puts every field back exactly, NaN and
    signed zeros included, leaving the heap as it was. *)
Theorem unit_negative_in_place (h : heap) (a : loc) (va : Vector) :
  h !! a = Some va ->
  Vector_unit a (Some a) h
    = Some (a, <[a := vmap (fun n => Num.div n (vec_length va)) va]> h)
  /\ negate_in_place_twice a h = Some (a, h).
Proof.
  intros Ha. split.
  - apply (Vector_unit_spec h a a va va Ha Ha).
  - unfold negate_in_place_twice, bind.
    rewrite (Vector_negative_spec h a a va va Ha Ha).
    rewrite (Vector_negative_spec _ a a (vmap neg va) (vmap neg va)).
    + rewrite list_insert_insert_eq, vmap_neg_twice.
      rewrite (list_insert_id h a va Ha). reflexivity.
    + apply list_lookup_insert_eq. eapply lookup_lt_Some. exact Ha.
    + apply list_lookup_insert_eq. eapply lookup_lt_Some. exact Ha.
Qed.

Lemma unit_negative_in_place_witness :
  Vector_unit 0 (Some 0) [mkVector three pzero (of_Z 4)]
    = Some (0, [mkVector (Num.div three (of_Z 5)) pzero
                         (Num.div (of_Z 4) (of_Z 5))])
  /\ negate_in_place_twice 0 [mkVector NaN nzero one]
     = Some (0, [mkVector NaN nzero one]).
Proof.
  split.
  - apply (proj1 (unit_negative_in_place [mkVector three pzero (of_Z 4)] 0 _
                    eq_refl)).
  - apply (proj2 (unit_negative_in_place [mkVector NaN nzero one] 0 _
                    eq_refl)).
Defined.

Lemma Vector_cross_distinct (h : heap) (a b c : loc) (va vb vc : Vector) :
  h !! a = Some va -> h !! b = Some vb -> h !! c = Some vc ->
  c <> a -> c <> b ->
  Vector_cross a b (Some c) h = Some (c, <[c := vec_cross va vb]> h).
Proof.
  intros Ha Hb Hc Hca Hcb.
  assert (Hlt : c < List.length h) by (eapply lookup_lt_Some; eassumption).
  unfold Vector_cross, default_out. heap_run. reflexivity.
Qed.

Lemma Vector_cross_fresh_value (h : heap) (a b : loc) (va vb : Vector) :
  h !! a = Some va -> h !! b = Some vb ->
  Vector_cross a b None h = Some (List.length h, h ++ [vec_cross va vb]).
Proof.
  intros Ha Hb.
  change (Vector_cross a b None h)
    with (Vector_cross a b (Some (List.length h))
            (h ++ [Vector_of (Number pzero) (Number pzero) (Number pzero)])).
  erewrite Vector_cross_distinct.
  - rewrite store_alloc_new. reflexivity.
  - apply lookup_alloc_old. exact Ha.
  - apply lookup_alloc_old. exact Hb.
  - apply lookup_alloc_new.
  - apply lookup_lt_Some in Ha. lia.
  - apply lookup_lt_Some in Hb. lia.
Qed.

(** X14: [Vector.cross(a, b, out)] stores the cross product of [a] and
    [b] when [out] is neither [a] nor [b], and allocates it when [out] is
    omitted. With [out] the object [a] itself (and [b] another object)
    it does not: the second component is computed from the first one
    just written, and the third from both. *)
Theorem Vector_cross_out (h : heap) (a b : loc) (va vb : Vector) :
  h !! a = Some va -> h !! b = Some vb ->
  Vector_cross a b None h
    = Some (List.length h, h ++ [vec_cross va vb])
  /\ (forall c, is_Some (h !! c) -> c <> a -> c <> b ->
        Vector_cross a b (Some c) h = Some (c, <[c := vec_cross va vb]> h))
  /\ (a <> b ->
        Vector_cross a b (Some a) h
        = Some (a, <[a := vec_cross_into_a va vb]> h)).
Proof.
  intros Ha Hb. split; [|split].
  - apply Vector_cross_fresh_value; assumption.
  - intros c [vc Hc] Hca Hcb. eapply Vector_cross_distinct; eassumption.
  - intros Hab.
    assert (Hlt : a < List.length h) by (eapply lookup_lt_Some; eassumption).
    unfold Vector_cross, default_out. heap_run. reflexivity.
Qed.

Lemma Vector_cross_out_witness :
  Vector_cross 0 1 None test_heap
    = Some (2, test_heap ++ [mkVector (of_Z (-3)) (of_Z 6) (of_Z (-3))])
  /\ Vector_cross 0 1 (Some 0) test_heap
     = Some (0, [mkVector (of_Z (-3)) (of_Z 30) (of_Z (-135));
                 mkVector (of_Z 4) (of_Z 5) (of_Z 6)]).
Proof.
  pose proof (Vector_cross_out test_heap 0 1 _ _ eq_refl eq_refl)
    as (H1 & _ & H3).
  split; [exact H1 | apply H3; discriminate].
Defined.

(** X15: for [negative], [unit] and [cross] too, the instance form
    returns the static form's result passed through the constructor. *)
Theorem instance_coerces_static_unary (h : heap) (a b : loc)
    (va vb : Vector) :
  h !! a = Some va -> h !! b = Some vb ->
  (Vector_negative a None h = Some (List.length h, h ++ [vmap neg va])
   /\ negative a h = Some (List.length h, h ++ [coerce (vmap neg va)]))
  /\ (Vector_unit a None h
        = Some (List.length h,
                h ++ [vmap (fun n => Num.div n (vec_length va)) va])
      /\ unit a h
        = Some (List.length h,
                h ++ [coerce (vmap (fun n => Num.div n (vec_length va)) va)]))
  /\ (Vector_cross a b None h
        = Some (List.length h, h ++ [vec_cross va vb])
      /\ cross a b h
        = Some (List.length h, h ++ [coerce (vec_cross va vb)])).
Proof.
  intros Ha Hb. repeat split.
  - apply Vector_negative_fresh. exact Ha.
  - apply negative_spec. exact Ha.
  - apply Vector_unit_fresh. exact Ha.
  - apply unit_spec. exact Ha.
  - apply Vector_cross_fresh_value; assumption.
  - apply cross_value; assumption.
Qed.

Lemma instance_coerces_static_unary_witness :
  Vector_negative 0 None [zero_vector]
    = Some (1, [zero_vector; mkVector nzero nzero nzero])
  /\ negative 0 [zero_vector] = Some (1, [zero_vector; zero_vector]).
Proof.
  apply (proj1 (instance_coerces_static_unary [zero_vector] 0 0 _ _
                  eq_refl eq_refl)).
Defined.

(** * [init], [clone] and [toArray] together *)

(** X16: [init] stores its three arguments as they are, NaN and [-0]
    included (the constructor would not): [v.init(x, y, z).toArray()] is
    [[x, y, z]] for all numbers. *)
Theorem init_stores_exactly (h : heap) (this : loc) (v : Vector)
    (ax ay az : number) :
  h !! this = Some v ->
  init_then_toArray this ax ay az h
  = Some ([ax; ay; az], <[this := mkVector ax ay az]> h).
Proof.
  intros Ha. unfold init_then_toArray, bind.
  rewrite (init_spec h this v ax ay az Ha).
  rewrite (toArray_spec _ this (mkVector ax ay az) Undefined).
  - reflexivity.
  - apply list_lookup_insert_eq. eapply lookup_lt_Some. exact Ha.
Qed.

Lemma init_stores_exactly_witness :
  init_then_toArray 0 NaN nzero one [zero_vector]
  = Some ([NaN; nzero; one], [mkVector NaN nzero one]).
Proof.
  apply (init_stores_exactly [zero_vector] 0 zero_vector NaN nzero one).
  reflexivity.
Defined.

(** X17: a clone is a snapshot: after [c = a.clone()], a later
    [a.init(x, y, z)] does not reach [c], whose components stay those
    [a] had, as the constructor stores them. *)
Theorem clone_is_snapshot (h : heap) (a : loc) (va : Vector)
    (ax ay az : number) :
  h !! a = Some va ->
  value (clone_then_init a ax ay az h)
  = Some [x (coerce va); y (coerce va); z (coerce va)].
Proof.
  intros Ha. unfold clone_then_init, bind.
  rewrite (clone_spec h a va Ha).
  rewrite (init_spec (h ++ [coerce va]) a va ax ay az)
    by (apply lookup_alloc_old; exact Ha).
  rewrite (toArray_spec _ (List.length h) (coerce va) Undefined).
  - reflexivity.
  - rewrite list_lookup_insert_ne.
    + apply lookup_alloc_new.
    + apply lookup_lt_Some in Ha. lia.
Qed.

Lemma clone_is_snapshot_witness :
  value (clone_then_init 0 NaN NaN NaN test_heap)
  = Some [one; of_Z 2; three].
Proof.
  apply (clone_is_snapshot test_heap 0 _ NaN NaN NaN eq_refl).
Defined.

(** X18: a negative [n] makes [toArray(n)] drop components from the end:
    with [k] the integer part of [-n], the first [3 - k] components are
    returned when [k >= 1], none when [k >= 3], and none either when
    [-1 < n < 0] or [n] is [-Infinity]. *)
Theorem toArray_negative (h : heap) (this : loc) (v : Vector)
    (m : positive) (e : Z) :
  h !! this = Some v ->
  let k := Z.shiftl (Z.pos m) e in
  (k = 0%Z ->
     toArray this (Number (S754_finite true m e)) h = Some ([], h))
  /\ ((1 <= k)%Z ->
     toArray this (Number (S754_finite true m e)) h
     = Some (firstn (Z.to_nat (3 - k)) [x v; y v; z v], h))
  /\ toArray this (Number (S754_infinity true)) h = Some ([], h).
Proof.
  intros Ha k.
  rewrite !(toArray_spec h this v _ Ha).
  unfold slice0, or_default.
  cbn [truthy to_integer_or_infinity List.length].
  fold k. change (Z.of_nat 3) with 3%Z.
  split; [|split].
  - intros Hk. rewrite Hk. reflexivity.
  - intros Hk.
    destruct (Z.ltb_spec (- k) 0) as [_|Hge]; [|lia].
    destruct (Z.le_gt_cases k 3) as [Hle|Hgt].
    + rewrite Z.max_l by lia.
      replace (3 + - k)%Z with (3 - k)%Z by lia. reflexivity.
    + rewrite Z.max_r by lia.
      replace (Z.to_nat (3 - k)) with (Z.to_nat 0) by lia. reflexivity.
  - reflexivity.
Qed.

Lemma toArray_negative_witness :
  toArray 0 (Number (of_Z (-2))) test_heap = Some ([one], test_heap).
Proof.
  apply (proj1 (proj2 (toArray_negative test_heap 0 _
                         4503599627370496 (-51) eq_refl))).
  vm_compute. discriminate.
Defined.

(** * Allocation in [Vector.lerp] *)

(** X19: [Vector.lerp(a, b, t)] allocates three vectors, the two scaled
    ones and then their sum, which it returns; the heap it was given is
    a prefix of the heap it leaves, so [a] and [b] are not changed. *)
Theorem Vector_lerp_allocates (h : heap) (a b : loc) (va vb : Vector)
    (t : number) :
  h !! a = Some va -> h !! b = Some vb ->
  Vector_lerp a b t h
  = Some (S (S (List.length h)),
          h ++ [coerce (zip Num.mul va (broadcast (Num.sub one t)));
                coerce (zip Num.mul vb (broadcast t));
                lerp_value va vb t]).
Proof.
  intros Ha Hb.
  set (A1 := coerce (zip Num.mul va (broadcast (Num.sub one t)))).
  set (B1 := coerce (zip Num.mul vb (broadcast t))).
  assert (Hl1 : List.length (h ++ [A1]) = S (List.length h))
    by (rewrite length_app; simpl; lia).
  assert (Hl2 : List.length ((h ++ [A1]) ++ [B1]) = S (S (List.length h)))
    by (rewrite length_app, Hl1; simpl; lia).
  unfold Vector_lerp, multiply, add, bind.
  rewrite (instance_arith_spec Num.mul h a (OScalar (Num.sub one t)) va
             (broadcast (Num.sub one t)))
    by (assumption || reflexivity).
  fold A1. cbv beta iota.
  rewrite (instance_arith_spec Num.mul (h ++ [A1]) b (OScalar t) vb
             (broadcast t))
    by (first [apply lookup_alloc_old; assumption | reflexivity]).
  fold B1. cbv beta iota.
  rewrite (instance_arith_spec Num.add ((h ++ [A1]) ++ [B1])
             (List.length h) (OVector (List.length (h ++ [A1]))) A1 B1).
  - rewrite Hl2. unfold lerp_value. fold A1 B1.
    rewrite <- !app_assoc. reflexivity.
  - apply lookup_alloc_old, lookup_alloc_new.
  - apply lookup_alloc_new.
Qed.

Lemma Vector_lerp_allocates_witness :
  Vector_lerp 0 1 (of_Z 2) test_heap
  = Some (4, test_heap ++ [mkVector (of_Z (-1)) (of_Z (-2)) (of_Z (-3));
                           mkVector (of_Z 8) (of_Z 10) (of_Z 12);
                           mkVector (of_Z 7) (of_Z 8) (of_Z 9)]).
Proof.
  etransitivity.
  - apply (Vector_lerp_allocates test_heap 0 1 _ _ (of_Z 2) eq_refl eq_refl).
  - vm_compute. reflexivity.
Defined.

(** * Where the two forms agree *)

Lemma operand_value_alloc (h : heap) (b : operand) (vb w : Vector) :
  operand_value h b = Some vb -> operand_value (h ++ [w]) b = Some vb.
Proof.
  destruct b as [l|n]; cbn [operand_value]; [apply lookup_alloc_old|];
    intros H; exact H.
Qed.

Lemma forms_agree_spec op (h : heap) (a : loc) (b : operand)
    (va vb : Vector) :
  h !! a = Some va -> operand_value h b = Some vb ->
  value (forms_agree (static_arith op) (instance_arith op) a b h)
  = Some (negb (has_nan (zip op va vb))).
Proof.
  intros Ha Hb. unfold forms_agree, bind.
  rewrite (instance_arith_spec op h a b va vb Ha Hb).
  rewrite (static_arith_fresh op (h ++ [coerce (zip op va vb)]) a b va vb)
    by (first [apply lookup_alloc_old; assumption
              | apply operand_value_alloc; assumption]).
  rewrite (equals_spec _ _ _ (coerce (zip op va vb)) (zip op va vb)).
  - rewrite vec_equals_coerce. reflexivity.
  - apply lookup_alloc_old, lookup_alloc_new.
  - apply lookup_alloc_new.
Qed.

(** X20: for [add], [subtract], [multiply] and [divide] and every second
    operand, vector or scalar, [a.op(b).equals(Vector.op(a, b))] is
    [true] exactly when no component of the result that the static form
    stores is NaN. *)
Theorem forms_agree_unless_nan (h : heap) (a : loc) (b : operand)
    (va vb : Vector) :
  h !! a = Some va -> operand_value h b = Some vb ->
  Forall (fun '(op, Vector_op, instance_op) =>
            value (forms_agree Vector_op instance_op a b h)
            = Some (negb (has_nan (zip op va vb))))
         arithmetic_forms.
Proof.
  intros Ha Hb. unfold arithmetic_forms.
  repeat (apply Forall_cons_2); try apply Forall_nil_2;
    apply (forms_agree_spec _ h a b va vb Ha Hb).
Qed.

Lemma forms_agree_unless_nan_witness :
  value (forms_agree Vector_add add 0 (OVector 1) test_heap) = Some true.
Proof.
  pose proof (forms_agree_unless_nan test_heap 0 (OVector 1) _ _
                eq_refl eq_refl) as H.
  apply Forall_cons_1 in H as [H _]. exact H.
Defined.
